(** * The exchange gateway of [backend/main.py]

    A shallow embedding of the two FastAPI routes [get_file] (GET /get) and
    [upload_file] (POST /post) together with the helpers
    [get_ssm_parameter], [set_ssm_parameter] and [clean_temp_dir].

    The routes talk to two boto3 clients (SSM parameter store, S3) and to
    the local file system ([tempfile.TemporaryDirectory]).  All of that
    mutable state is collected in one record, [World], that is threaded
    through a state-and-exception monad [Py]: a Python call either returns
    a value or raises, and in both cases leaves a new world behind.  Two
    exception classes are named in the source, [HTTPException] and
    botocore's [ClientError]; the [try]/[except ClientError] blocks of
    the source only catch the second one, and let every other exception
    through.

    The services behind the clients are not part of the program.  They
    are modelled as finite maps, and every call on a client may be failed
    by the environment (field [faults] of the world): with a
    [ClientError] of any error code, or with an exception that is not a
    [ClientError] (botocore's [NoCredentialsError], a connection error,
    an [OSError] of the local file system), which no [except] clause of
    the source catches.  A call that is failed leaves the stores as they
    are.  The local file system is the temporary directories and the
    files that a download writes outside of them, when the tracked name
    leads out of its directory.  Logging is left out.  FastAPI admits a
    request only when [who_are_you] and [password] are at most 20
    characters long ([Query(..., max_length=20)]); the routes below are
    the bodies that run after that check. *)

From Stdlib Require Import Strings.Ascii Strings.String Lists.List Strings.Byte.
From stdpp Require Import base option gmap strings list pretty.

Open Scope string_scope.
Open Scope list_scope.

(** ** Data *)

(** [os.path.join(temp_dir.name, filename)], kept as its two arguments.
    Temporary directories are named by numbers. *)
Record Path := mkPath { path_dir : nat; path_name : string }.

(** The calls made on the boto3 clients, as they are written in the source. *)
Inductive AwsCall :=
| GetParameter (Name : string) (WithDecryption : bool)
| PutParameter (Name Value : string) (Overwrite : bool)
| DownloadFile (Bucket Key : string) (Filename : Path)
| UploadFileobj (Fileobj : list byte) (Bucket Key : string).

(** What [background_tasks.add_task] can be given in this program. *)
Inductive Task :=
| clean_temp_dir_task (temp_dir : nat).

#[global] Instance Task_eq_dec : EqDecision Task.
Proof. solve_decision. Defined.

(** What the environment can do to a boto3 call instead of answering it:
    make it raise [ClientError] with an error code, or make it raise an
    exception of another class, named by [exception].  Either way the
    call has not reached the store: a failed write writes nothing. *)
Inductive Fault :=
| ClientFault (Code : string)
| OtherFault (exception : string).

#[global] Instance Fault_eq_dec : EqDecision Fault.
Proof. solve_decision. Defined.

(** The world a request runs in.
    - [ssm]: the parameter store, name to value;
    - [s3]: the object store, (bucket, key) to content;
    - [tmp], [tmp_next]: the live temporary directories, each with the
      files directly inside it, and the name of the next one;
    - [outside]: the files written outside the temporary directories, by
      their path;
    - [background_tasks]: the [BackgroundTasks] object of the request;
    - [faults]: what the environment does to the coming boto3 calls, in
      order: [None] lets a call through, [Some fault] makes it raise;
      past the end of the list no call is disturbed;
    - [calls]: the boto3 calls made so far, oldest first. *)
Record World := mkWorld {
  ssm : gmap string string;
  s3 : gmap (string * string) (list byte);
  tmp : gmap nat (gmap string (list byte));
  tmp_next : nat;
  outside : gmap string (list byte);
  background_tasks : list Task;
  faults : list (option Fault);
  calls : list AwsCall
}.

Definition set_ssm (f : gmap string string → gmap string string) (w : World) : World :=
  mkWorld (f (ssm w)) (s3 w) (tmp w) (tmp_next w) (outside w) (background_tasks w)
          (faults w) (calls w).

Definition set_s3 (f : gmap (string * string) (list byte) → gmap (string * string) (list byte))
    (w : World) : World :=
  mkWorld (ssm w) (f (s3 w)) (tmp w) (tmp_next w) (outside w) (background_tasks w)
          (faults w) (calls w).

Definition set_tmp (f : gmap nat (gmap string (list byte)) → gmap nat (gmap string (list byte)))
    (w : World) : World :=
  mkWorld (ssm w) (s3 w) (f (tmp w)) (tmp_next w) (outside w) (background_tasks w)
          (faults w) (calls w).

Definition set_tmp_next (n : nat) (w : World) : World :=
  mkWorld (ssm w) (s3 w) (tmp w) n (outside w) (background_tasks w) (faults w) (calls w).

Definition set_outside (f : gmap string (list byte) → gmap string (list byte)) (w : World)
    : World :=
  mkWorld (ssm w) (s3 w) (tmp w) (tmp_next w) (f (outside w)) (background_tasks w)
          (faults w) (calls w).

Definition set_background_tasks (f : list Task → list Task) (w : World) : World :=
  mkWorld (ssm w) (s3 w) (tmp w) (tmp_next w) (outside w) (f (background_tasks w))
          (faults w) (calls w).

(** The outcome the environment has decided for the [i]-th coming call. *)
Definition fault_at (i : nat) (w : World) : option Fault :=
  mjoin (faults w !! i).

(** One boto3 call leaves the client: it is logged and uses up the head
    of [faults]. *)
Definition log_call (c : AwsCall) (w : World) : World :=
  mkWorld (ssm w) (s3 w) (tmp w) (tmp_next w) (outside w) (background_tasks w)
          (tail (faults w)) (calls w ++ [c]).

(** ** Local paths *)

(** [name.split("/")]. *)
Fixpoint split_slash (name : string) : list string :=
  match name with
  | "" => [""]
  | String c rest =>
      match split_slash rest with
      | [] => [String c ""]
      | x :: xs => if Ascii.eqb c "/"%char then "" :: x :: xs else String c x :: xs
      end
  end.

(** A component of a path that names a directory entry, not the
    directory itself (["."], or nothing between two slashes) and not its
    parent. *)
Definition entry_name (component : string) : bool :=
  negb (bool_decide (component = "")) && negb (bool_decide (component = "."))
  && negb (bool_decide (component = "..")).

(** Where [os.path.join(temp_dir.name, name)] leads when [temp_dir] has
    just been made and is empty:
    - [Inside file]: to the entry [file] of the directory;
    - [Outside]: out of the directory, to a file somewhere else (the name
      is absolute or goes up with [".."]), which is taken to be
      writable;
    - [Nowhere exception]: to no file that can be written; opening it
      raises [exception]: the path goes through a subdirectory, which
      does not exist, or it ends on a directory. *)
Inductive Location :=
| Inside (file : string)
| Outside
| Nowhere (exception : string).

Definition absolute (name : string) : bool :=
  match name with
  | String c _ => Ascii.eqb c "/"%char
  | "" => false
  end.

Definition locate (name : string) : Location :=
  let components := split_slash name in
  let target := List.last components "" in
  let directories :=
    List.filter (λ c, negb (bool_decide (c = "")) && negb (bool_decide (c = ".")))
                (List.removelast components) in
  match negb (absolute name), directories with
  | true, d :: _ =>
      if bool_decide (d = "..") then
        if entry_name target then Outside else Nowhere "OSError"
      else Nowhere "FileNotFoundError"
  | true, [] => if entry_name target then Inside target else Nowhere "OSError"
  | false, _ => if entry_name target then Outside else Nowhere "OSError"
  end.

(** A name that is one entry of a directory: not empty, without ["/"],
    and neither ["."] nor [".."]. *)
Fixpoint has_slash (name : string) : bool :=
  match name with
  | "" => false
  | String c rest => Ascii.eqb c "/"%char || has_slash rest
  end.

Definition plain_name (name : string) : bool :=
  negb (has_slash name) && entry_name name.

(** The name of a temporary directory and [os.path.join] as a string. *)
Definition temp_dir_name (temp_dir : nat) : string :=
  "/tmp/tmp" +:+ pretty temp_dir.

Definition os_path_join (p : Path) : string :=
  if absolute (path_name p) then path_name p
  else temp_dir_name (path_dir p) +:+ "/" +:+ path_name p.

(** ** Exceptions and the monad *)

(** The third class stands for every exception that is neither of the two
    the source names: botocore's [NoCredentialsError] and connection
    errors, [OSError] and its subclasses. *)
Inductive Exn :=
| HTTPException (status_code : nat) (detail : string)
| ClientError (Code : string)
| OtherException (exception : string).

Inductive Outcome (A : Type) :=
| Return (a : A)
| Raise (e : Exn).
Arguments Return {A} a.
Arguments Raise {A} e.

Definition Py (A : Type) : Type := World → Outcome A * World.

Definition ret {A} (a : A) : Py A := λ w, (Return a, w).

Definition raise {A} (e : Exn) : Py A := λ w, (Raise e, w).

Definition bind {A B} (m : Py A) (k : A → Py B) : Py B :=
  λ w, match m w with
       | (Return a, w') => k a w'
       | (Raise e, w') => (Raise e, w')
       end.

Notation "x <- m ;; k" := (bind m (λ x, k))
  (at level 100, m at next level, right associativity).
Notation "m ;;; k" := (bind m (λ _, k))
  (at level 100, right associativity).

(** [try: body except ClientError as e: handler e].  An [HTTPException]
    raised by the body is not caught. *)
Definition try_except_ClientError {A} (body : Py A) (handler : string → Py A) : Py A :=
  λ w, match body w with
       | (Raise (ClientError code), w') => handler code w'
       | r => r
       end.

(** [try: body finally: final]. *)
Definition try_finally {A} (body : Py A) (final : Py unit) : Py A :=
  λ w, match body w with
       | (r, w') =>
           match final w' with
           | (Return _, w'') => (r, w'')
           | (Raise e, w'') => (Raise e, w'')
           end
       end.

Definition modify (f : World → World) : Py unit := λ w, (Return tt, f w).

(** ** The boto3 clients and the temporary directory *)

(** Hands the call to the environment; answers with the fault, if any. *)
Definition aws (c : AwsCall) : Py (option Fault) :=
  λ w, (Return (fault_at 0 w), log_call c w).

(** What a call raises when the environment fails it. *)
Definition failed {A} (f : Fault) : Py A :=
  match f with
  | ClientFault code => raise (ClientError code)
  | OtherFault exception => raise (OtherException exception)
  end.

(** [ssm_client.get_parameter(Name=.., WithDecryption=..)["Parameter"]["Value"]];
    a name that is not in the store raises [ParameterNotFound], which
    botocore derives from [ClientError] by the error code. *)
Definition ssm_get_parameter (Name : string) (WithDecryption : bool) : Py string :=
  f <- aws (GetParameter Name WithDecryption) ;;
  match f with
  | Some fault => failed fault
  | None =>
      λ w, match ssm w !! Name with
           | Some v => (Return v, w)
           | None => (Raise (ClientError "ParameterNotFound"), w)
           end
  end.

(** [ssm_client.put_parameter(Name=.., Value=.., Type="String", Overwrite=..)]. *)
Definition ssm_put_parameter (Name Value : string) (Overwrite : bool) : Py unit :=
  f <- aws (PutParameter Name Value Overwrite) ;;
  match f with
  | Some fault => failed fault
  | None =>
      λ w, match ssm w !! Name, Overwrite with
           | Some _, false => (Raise (ClientError "ParameterAlreadyExists"), w)
           | _, _ => (Return tt, set_ssm (insert Name Value) w)
           end
  end.

(** [s3_client.download_file(Bucket, Key, Filename)]: a key that is not in
    the bucket raises [ClientError] with code ["404"]; otherwise the
    object is written to the local file [Filename], where that path
    leads (see [locate]): into the temporary directory, out of it, or to
    no file, in which case opening it raises. *)
Definition s3_download_file (Bucket Key : string) (Filename : Path) : Py unit :=
  f <- aws (DownloadFile Bucket Key Filename) ;;
  match f with
  | Some fault => failed fault
  | None =>
      λ w, match s3 w !! (Bucket, Key) with
           | Some content =>
               match locate (path_name Filename) with
               | Inside file =>
                   (Return tt, set_tmp (alter (insert file content) (path_dir Filename)) w)
               | Outside =>
                   (Return tt, set_outside (insert (os_path_join Filename) content) w)
               | Nowhere exception => (Raise (OtherException exception), w)
               end
           | None => (Raise (ClientError "404"), w)
           end
  end.

(** [s3_client.upload_fileobj(Fileobj, Bucket, Key)]. *)
Definition s3_upload_fileobj (Fileobj : list byte) (Bucket Key : string) : Py unit :=
  f <- aws (UploadFileobj Fileobj Bucket Key) ;;
  match f with
  | Some fault => failed fault
  | None => modify (set_s3 (insert (Bucket, Key) Fileobj))
  end.

(** [tempfile.TemporaryDirectory()]: a fresh, empty directory.  The
    object removes its directory when [cleanup()] is called on it and,
    through its finalizer, when it is collected: see [collect]. *)
Definition TemporaryDirectory : Py nat :=
  λ w, (Return (tmp_next w),
        set_tmp_next (S (tmp_next w)) (set_tmp (insert (tmp_next w) ∅) w)).

(** [temp_dir.cleanup()]: the directory goes, with what is inside it. *)
Definition cleanup (temp_dir : nat) : Py unit :=
  modify (set_tmp (delete temp_dir)).

(** [background_tasks.add_task(clean_temp_dir, temp_dir)]. *)
Definition add_task (t : Task) : Py unit :=
  modify (set_background_tasks (λ ts, ts ++ [t])).

(** Garbage collection once a route has been left: a
    [TemporaryDirectory] that no scheduled task refers to is not
    reachable any more, and its finalizer removes the directory. *)
Definition collect (w : World) : World :=
  set_tmp (filter (λ entry, clean_temp_dir_task entry.1 ∈ background_tasks w)) w.

(** The content of a file of the local file system. *)
Definition read_file (p : Path) (w : World) : option (list byte) :=
  match locate (path_name p) with
  | Inside file => tmp w !! path_dir p ≫= λ d, d !! file
  | Outside => outside w !! os_path_join p
  | Nowhere _ => None
  end.

(** Python's [str()] of a [str | None], as an f-string prints it. *)
Definition str (v : option string) : string :=
  match v with
  | Some s => s
  | None => "None"
  end.

(** ** Requests and responses *)

(** Starlette's [UploadFile], as far as the route reads it.  A part
    without a file name has the empty name here. *)
Module UploadFile.
Record t := mk { filename : string; file : list byte }.
End UploadFile.

(** [fastapi.responses.FileResponse(path=.., filename=.., media_type=..)].
    The body that goes out is the content of [path] when the response is
    sent, see [body] below. *)
Module FileResponse.
Record t := mk { path : Path; filename : string; media_type : string }.
End FileResponse.

(** The body a [FileResponse] sends from the world the route left. *)
Definition body (r : FileResponse.t) (w : World) : option (list byte) :=
  read_file (FileResponse.path r) w.

(** ** Configuration *)

(** The module-level names read from the environment, and the two clients,
    which are [None] ([false] here) when boto3 found no credentials. *)
Record Config := mkConfig {
  S3_BUCKET_NAME : string;
  SSM_PARAMETER_NAME : string;
  SSM_FILENAME_PARAMETER_NAME : string;
  SSM_PASSWORD_PARAMETER_NAME : string;
  s3_client : bool;
  ssm_client : bool
}.

Definition LOCK_VALUE_UNLOCKED : string := "unlocked".

(** Python's [not v] for a [str | None]. *)
Definition falsy (v : option string) : bool :=
  match v with
  | None => true
  | Some s => bool_decide (s = "")
  end.

Section Gateway.

Context (cfg : Config).

(** ** Helper functions *)

Definition get_ssm_parameter (parameter_name : string) (with_decryption : bool)
    : Py (option string) :=
  if negb (ssm_client cfg) then ret None
  else
    try_except_ClientError
      (response <- ssm_get_parameter parameter_name with_decryption ;;
       ret (Some response))
      (λ code,
        if bool_decide (code = "ParameterNotFound") then ret None
        else raise (HTTPException 500
               ("Error communicating with AWS SSM to get " +:+ parameter_name))).

Definition set_ssm_parameter (parameter_name value : string) (overwrite : bool) : Py bool :=
  if negb (ssm_client cfg) then ret false
  else
    try_except_ClientError
      (ssm_put_parameter parameter_name value overwrite ;;;
       ret true)
      (λ code,
        if bool_decide (code = "ParameterAlreadyExists") && negb overwrite then ret true
        else raise (HTTPException 500
               ("Error communicating with AWS SSM to set " +:+ parameter_name))).

Definition clean_temp_dir (temp_dir : nat) : Py unit :=
  cleanup temp_dir.

(** ** API routes *)

(** [GET /get].  The [background_tasks] argument of the source is the
    field of that name of the world. *)
Definition get_file (who_are_you password : string) : Py FileResponse.t :=
  if negb (s3_client cfg) || negb (ssm_client cfg) then
    raise (HTTPException 503 "AWS service client not available.")
  else
  app_password <- get_ssm_parameter (SSM_PASSWORD_PARAMETER_NAME cfg) true ;;
  if bool_decide (app_password ≠ Some password) then
    raise (HTTPException 403 "Provided password not valid")
  else
  current_lock_value <- get_ssm_parameter (SSM_PARAMETER_NAME cfg) false ;;
  if bool_decide (current_lock_value = Some LOCK_VALUE_UNLOCKED) then
    filename_to_download <- get_ssm_parameter (SSM_FILENAME_PARAMETER_NAME cfg) false ;;
    if falsy filename_to_download || bool_decide (filename_to_download = Some "init") then
      raise (HTTPException 404 "No valid save filename found to download.")
    else
    (* past the guard the name is a non-empty string *)
    let filename_to_download := str filename_to_download in
    temp_dir <- TemporaryDirectory ;;
    try_except_ClientError
      (let local_path := mkPath temp_dir filename_to_download in
       s3_download_file (S3_BUCKET_NAME cfg) filename_to_download local_path ;;;
       locked <- set_ssm_parameter (SSM_PARAMETER_NAME cfg) who_are_you true ;;
       if locked then
         add_task (clean_temp_dir_task temp_dir) ;;;
         ret (FileResponse.mk local_path filename_to_download "application/octet-stream")
       else
         add_task (clean_temp_dir_task temp_dir) ;;;
         raise (HTTPException 500 "Failed to update API lock after download."))
      (λ code,
        add_task (clean_temp_dir_task temp_dir) ;;;
        if bool_decide (code = "NoSuchKey") || bool_decide (code = "404") then
          raise (HTTPException 404
                   ("Save file '" +:+ filename_to_download +:+ "' not found in S3."))
        else
          raise (HTTPException 500 "Error downloading file from S3."))
  else
    raise (HTTPException 409
             ("Cannot download as save is locked by " +:+ str current_lock_value)).

(** [await file.close()]: the spooled upload is not part of the world. *)
Definition close (file : UploadFile.t) : Py unit := ret tt.

(** [POST /post].  The value returned is the ["message"] of the JSON body. *)
Definition upload_file (who_are_you password : string) (file : UploadFile.t) : Py string :=
  if negb (s3_client cfg) || negb (ssm_client cfg) then
    raise (HTTPException 503 "AWS service client not available.")
  else
  app_password <- get_ssm_parameter (SSM_PASSWORD_PARAMETER_NAME cfg) true ;;
  if bool_decide (app_password ≠ Some password) then
    raise (HTTPException 403 "Provided password not valid")
  else
  if bool_decide (UploadFile.filename file = "") then
    raise (HTTPException 400 "Filename cannot be empty.")
  else
  current_lock_value <- get_ssm_parameter (SSM_PARAMETER_NAME cfg) false ;;
  if bool_decide (current_lock_value ≠ Some LOCK_VALUE_UNLOCKED) then
    try_finally
      (try_except_ClientError
         (s3_upload_fileobj (UploadFile.file file) (S3_BUCKET_NAME cfg)
                            (UploadFile.filename file) ;;;
          tracked <- set_ssm_parameter (SSM_FILENAME_PARAMETER_NAME cfg)
                                       (UploadFile.filename file) true ;;
          if negb tracked then
            raise (HTTPException 500
                     "File uploaded but failed to update tracking parameter.")
          else
          set_ssm_parameter (SSM_PARAMETER_NAME cfg) LOCK_VALUE_UNLOCKED true ;;;
          ret ("File '" +:+ UploadFile.filename file +:+ "' uploaded successfully by '"
                 +:+ who_are_you +:+ "'."))
         (λ code, raise (HTTPException 500 "Error uploading file to S3.")))
      (close file)
  else
    close file ;;;
    raise (HTTPException 409
             "Cannot upload: API lock is 'unlocked', indicating a file may already be present and downloadable.").

(** What the framework does with the [background_tasks] once the response
    is out: it runs them in order. *)
Definition run_task (t : Task) : Py unit :=
  match t with
  | clean_temp_dir_task temp_dir => clean_temp_dir temp_dir
  end.

Fixpoint run_tasks (ts : list Task) : Py unit :=
  match ts with
  | [] => ret tt
  | t :: ts => run_task t ;;; run_tasks ts
  end.

End Gateway.

(** ** The end of a request *)

(** When the response is out the background tasks are run and dropped;
    no [TemporaryDirectory] of the request is reachable after that, so
    what is left of them is collected. *)
Definition end_of_request (w : World) : World :=
  collect (set_background_tasks (λ _, []) (run_tasks (background_tasks w) w).2).

(** ** Requests as properties read them *)

(** Both clients exist (the routes answer 503 otherwise). *)
Definition available (cfg : Config) : Prop :=
  s3_client cfg = true ∧ ssm_client cfg = true.

(** The environment lets the coming [n] boto3 calls through. *)
Definition undisturbed (n : nat) (w : World) : Prop :=
  forallb (λ f, bool_decide (f = None)) (take n (faults w)) = true.

(** The parameter store and the object store, the two stores a request
    can change. *)
Definition stores (w : World) : gmap string string * gmap (string * string) (list byte) :=
  (ssm w, s3 w).

(** The acknowledgement [upload_file] returns. *)
Definition uploaded (file : UploadFile.t) (who_are_you : string) : string :=
  "File '" +:+ UploadFile.filename file +:+ "' uploaded successfully by '"
    +:+ who_are_you +:+ "'.".

(** ** A concrete deployment *)

Definition example_cfg : Config :=
  mkConfig "saves" "/save/lock" "/save/filename" "/save/password" true true.

Definition example_world (lock filename : string) (fs : list (option Fault)) : World :=
  mkWorld (<["/save/lock" := lock]>
             (<["/save/filename" := filename]>
                (<["/save/password" := "hunter2"]> ∅)))
          (<[("saves", "report.csv") := list_byte_of_string "a,b,c"]> ∅)
          ∅ 0 ∅ [] fs [].

(** An unlocked gateway that tracks a blob stored under [filename]. *)
Definition example_world_tracking (filename : string) (fs : list (option Fault)) : World :=
  mkWorld (<["/save/lock" := "unlocked"]>
             (<["/save/filename" := filename]>
                (<["/save/password" := "hunter2"]> ∅)))
          (<[("saves", filename) := list_byte_of_string "a,b,c"]> ∅)
          ∅ 0 ∅ [] fs [].

(** ** Start-up *)

(** The module-level code that runs before any request: it reads the
    environment ([environ], after [load_dotenv()]), refuses to start
    when a required name is unset or empty, and creates the two clients
    in the region it has read. *)
Inductive StartupError :=
| ValueError (message : string)
| Uncaught (exception : string).

(** What [boto3.client(service, region_name=region)] does: it returns a
    client, raises [NoCredentialsError], or raises something else (for a
    region that botocore does not take, say). *)
Inductive Creation :=
| Created
| NoCredentialsError
| CreationError (exception : string).

(** The [try] block that creates the clients: when either creation
    raises [NoCredentialsError], both names are bound to [None]; any
    other exception is not caught and ends the start-up. *)
Definition create_clients (boto3 : string → string → Creation) (region : string)
    : StartupError + (bool * bool) :=
  match boto3 "s3" region with
  | Created =>
      match boto3 "ssm" region with
      | Created => inr (true, true)
      | NoCredentialsError => inr (false, false)
      | CreationError exception => inl (Uncaught exception)
      end
  | NoCredentialsError => inr (false, false)
  | CreationError exception => inl (Uncaught exception)
  end.

(** Returns [AWS_REGION] and the configuration of the routes. *)
Definition startup (environ : gmap string string) (boto3 : string → string → Creation)
    : StartupError + (string * Config) :=
  let AWS_REGION := default "eu-west-3" (environ !! "AWS_REGION") in
  let S3_BUCKET_NAME := environ !! "S3_BUCKET_NAME" in
  let SSM_PARAMETER_NAME := environ !! "SSM_PARAMETER_NAME" in
  let SSM_FILENAME_PARAMETER_NAME := environ !! "SSM_FILENAME_PARAMETER_NAME" in
  let SSM_PASSWORD_PARAMETER_NAME := environ !! "SSM_PASSWORD_PARAMETER_NAME" in
  if falsy S3_BUCKET_NAME
     || falsy SSM_PARAMETER_NAME
     || falsy SSM_FILENAME_PARAMETER_NAME
     || falsy SSM_PASSWORD_PARAMETER_NAME
  then
    inl (ValueError
           "Missing required environment variables: S3_BUCKET_NAME, SSM_PARAMETER_NAME, SSM_FILENAME_PARAMETER_NAME, SSM_PASSWORD_PARAMETER_NAME")
  else
    match create_clients boto3 AWS_REGION with
    | inl e => inl e
    | inr clients =>
        inr (AWS_REGION,
             mkConfig (default "" S3_BUCKET_NAME) (default "" SSM_PARAMETER_NAME)
                      (default "" SSM_FILENAME_PARAMETER_NAME)
                      (default "" SSM_PASSWORD_PARAMETER_NAME)
                      clients.1 clients.2)
    end.

(** The names the start-up requires. *)
Definition required_names : list string :=
  ["S3_BUCKET_NAME"; "SSM_PARAMETER_NAME"; "SSM_FILENAME_PARAMETER_NAME";
   "SSM_PASSWORD_PARAMETER_NAME"].

(** ** How a read ends *)

(** What [get_ssm_parameter] makes of the answer to its call, when there
    is a client: the stored value, [None] for a name that is not there
    or for the error code of [ParameterNotFound], 500 for any other
    error code, and the exception itself when it is not a [ClientError]. *)
Definition reading (parameter_name : string) (w : World) : Outcome (option string) :=
  match fault_at 0 w with
  | None => Return (ssm w !! parameter_name)
  | Some (ClientFault code) =>
      if bool_decide (code = "ParameterNotFound") then Return None
      else Raise (HTTPException 500
                    ("Error communicating with AWS SSM to get " +:+ parameter_name))
  | Some (OtherFault exception) => Raise (OtherException exception)
  end.

(** The statuses either route can answer with. *)
Definition get_file_statuses : list nat := [403; 404; 409; 500; 503].
Definition upload_file_statuses : list nat := [400; 403; 409; 500; 503].

(** The boto3 calls of an upload, in the order of the source. *)
Definition upload_file_calls (cfg : Config) (file : UploadFile.t) : list AwsCall :=
  [GetParameter (SSM_PASSWORD_PARAMETER_NAME cfg) true;
   GetParameter (SSM_PARAMETER_NAME cfg) false;
   UploadFileobj (UploadFile.file file) (S3_BUCKET_NAME cfg) (UploadFile.filename file);
   PutParameter (SSM_FILENAME_PARAMETER_NAME cfg) (UploadFile.filename file) true;
   PutParameter (SSM_PARAMETER_NAME cfg) LOCK_VALUE_UNLOCKED true].

(** The boto3 calls of a download of the blob [name] staged in directory
    [temp_dir], in the order of the source. *)
Definition get_file_calls (cfg : Config) (who_are_you name : string) (temp_dir : nat)
    : list AwsCall :=
  [GetParameter (SSM_PASSWORD_PARAMETER_NAME cfg) true;
   GetParameter (SSM_PARAMETER_NAME cfg) false;
   GetParameter (SSM_FILENAME_PARAMETER_NAME cfg) false;
   DownloadFile (S3_BUCKET_NAME cfg) name (mkPath temp_dir name);
   PutParameter (SSM_PARAMETER_NAME cfg) who_are_you true].

(** ** One request after another *)

(** The requests the two routes take. *)
Inductive Request :=
| GET_get (who_are_you password : string)
| POST_post (who_are_you password : string) (file : UploadFile.t).

(** The world a request leaves, whether its route returned or raised. *)
Definition serve (cfg : Config) (q : Request) (w : World) : World :=
  match q with
  | GET_get who_are_you password => (get_file cfg who_are_you password w).2
  | POST_post who_are_you password file => (upload_file cfg who_are_you password file w).2
  end.

(** The world after the requests [qs], served in order. *)
Definition serve_all (cfg : Config) (qs : list Request) (w : World) : World :=
  foldl (λ w q, serve cfg q w) w qs.

(** No drift: the tracked filename, if there is one, names a blob of the
    bucket. *)
Definition tracked_blob_exists (cfg : Config) (w : World) : Prop :=
  ∀ name, ssm w !! SSM_FILENAME_PARAMETER_NAME cfg = Some name →
          is_Some (s3 w !! (S3_BUCKET_NAME cfg, name)).

(** * Properties *)

(** ** The world after a call *)

Lemma fault_at_log_call i c w : fault_at i (log_call c w) = fault_at (S i) w.
Proof. unfold fault_at, log_call. simpl. by rewrite lookup_tail. Qed.

Lemma undisturbed_fault_at n w i : undisturbed n w → i < n → fault_at i w = None.
Proof.
  unfold undisturbed, fault_at. generalize (faults w). clear w.
  intros fs. revert n i. induction fs as [|f fs IH]; intros [|n] i H Hi; try lia; try done.
  simpl in H. apply andb_prop in H as [Hf H]. apply bool_decide_eq_true in Hf as ->.
  destruct i as [|i]; [done|]. simpl. apply (IH n); [done | lia].
Qed.

Lemma fault_at_set_ssm i f w : fault_at i (set_ssm f w) = fault_at i w.
Proof. done. Qed.

Lemma fault_at_set_s3 i f w : fault_at i (set_s3 f w) = fault_at i w.
Proof. done. Qed.

Lemma fault_at_set_tmp i f w : fault_at i (set_tmp f w) = fault_at i w.
Proof. done. Qed.

Lemma fault_at_set_tmp_next i n w : fault_at i (set_tmp_next n w) = fault_at i w.
Proof. done. Qed.

Lemma fault_at_set_outside i f w : fault_at i (set_outside f w) = fault_at i w.
Proof. done. Qed.

Lemma fault_at_set_background_tasks i f w :
  fault_at i (set_background_tasks f w) = fault_at i w.
Proof. done. Qed.

Create Rewrite HintDb world.
#[export] Hint Rewrite fault_at_log_call fault_at_set_ssm fault_at_set_s3 fault_at_set_tmp
  fault_at_set_tmp_next fault_at_set_outside fault_at_set_background_tasks : world.

(** ** Sequencing *)

Lemma bind_Return {A B} (m : Py A) (k : A → Py B) w a w' :
  m w = (Return a, w') → bind m k w = k a w'.
Proof. unfold bind. by intros ->. Qed.

Lemma bind_Raise {A B} (m : Py A) (k : A → Py B) w e w' :
  m w = (Raise e, w') → bind m k w = (Raise e, w').
Proof. unfold bind. by intros ->. Qed.

Lemma try_except_HTTPException {A} (body : Py A) handler w status detail w' :
  body w = (Raise (HTTPException status detail), w') →
  try_except_ClientError body handler w = (Raise (HTTPException status detail), w').
Proof. unfold try_except_ClientError. by intros ->. Qed.

Lemma try_except_ClientError_caught {A} (body : Py A) handler w code w' :
  body w = (Raise (ClientError code), w') →
  try_except_ClientError body handler w = handler code w'.
Proof. unfold try_except_ClientError. by intros ->. Qed.

(** ** The clients *)

Lemma bind_unfold {A B} (m : Py A) (k : A → Py B) w :
  bind m k w = match m w with
               | (Return a, w') => k a w'
               | (Raise e, w') => (Raise e, w')
               end.
Proof. done. Qed.

(** Each client call in one equation: what the environment does to it,
    then what the stores hold. *)
Lemma s3_download_file_eq Bucket Key Filename w :
  s3_download_file Bucket Key Filename w
  = let w' := log_call (DownloadFile Bucket Key Filename) w in
    match fault_at 0 w with
    | Some (ClientFault code) => (Raise (ClientError code), w')
    | Some (OtherFault exception) => (Raise (OtherException exception), w')
    | None =>
        match s3 w !! (Bucket, Key) with
        | None => (Raise (ClientError "404"), w')
        | Some content =>
            match locate (path_name Filename) with
            | Inside file =>
                (Return tt, set_tmp (alter (insert file content) (path_dir Filename)) w')
            | Outside =>
                (Return tt, set_outside (insert (os_path_join Filename) content) w')
            | Nowhere exception => (Raise (OtherException exception), w')
            end
        end
    end.
Proof.
  unfold s3_download_file. rewrite bind_unfold. unfold aws. cbn beta iota zeta.
  destruct (fault_at 0 w) as [[code|exception]|]; [done..|].
  cbn [s3 log_call]. destruct (s3 w !! (Bucket, Key)); [|done].
  by destruct (locate (path_name Filename)).
Qed.

Lemma s3_upload_fileobj_eq Fileobj Bucket Key w :
  s3_upload_fileobj Fileobj Bucket Key w
  = let w' := log_call (UploadFileobj Fileobj Bucket Key) w in
    match fault_at 0 w with
    | Some (ClientFault code) => (Raise (ClientError code), w')
    | Some (OtherFault exception) => (Raise (OtherException exception), w')
    | None => (Return tt, set_s3 (insert (Bucket, Key) Fileobj) w')
    end.
Proof.
  unfold s3_upload_fileobj. rewrite bind_unfold. unfold aws. cbn beta iota zeta.
  by destruct (fault_at 0 w) as [[code|exception]|].
Qed.

Lemma s3_download_file_found Bucket Key Filename w content file :
  fault_at 0 w = None →
  s3 w !! (Bucket, Key) = Some content →
  locate (path_name Filename) = Inside file →
  s3_download_file Bucket Key Filename w
  = (Return tt,
     set_tmp (alter (insert file content) (path_dir Filename))
             (log_call (DownloadFile Bucket Key Filename) w)).
Proof. intros Hf Hk Hl. rewrite s3_download_file_eq. cbn zeta. by rewrite Hf, Hk, Hl. Qed.

Lemma s3_download_file_missing Bucket Key Filename w :
  fault_at 0 w = None →
  s3 w !! (Bucket, Key) = None →
  s3_download_file Bucket Key Filename w
  = (Raise (ClientError "404"), log_call (DownloadFile Bucket Key Filename) w).
Proof. intros Hf Hk. rewrite s3_download_file_eq. cbn zeta. by rewrite Hf, Hk. Qed.

Lemma s3_download_file_fault Bucket Key Filename w code :
  fault_at 0 w = Some (ClientFault code) →
  s3_download_file Bucket Key Filename w
  = (Raise (ClientError code), log_call (DownloadFile Bucket Key Filename) w).
Proof. intros Hf. rewrite s3_download_file_eq. cbn zeta. by rewrite Hf. Qed.

Lemma s3_upload_fileobj_stored Fileobj Bucket Key w :
  fault_at 0 w = None →
  s3_upload_fileobj Fileobj Bucket Key w
  = (Return tt,
     set_s3 (insert (Bucket, Key) Fileobj) (log_call (UploadFileobj Fileobj Bucket Key) w)).
Proof. intros Hf. rewrite s3_upload_fileobj_eq. cbn zeta. by rewrite Hf. Qed.

Lemma s3_upload_fileobj_fault Fileobj Bucket Key w code :
  fault_at 0 w = Some (ClientFault code) →
  s3_upload_fileobj Fileobj Bucket Key w
  = (Raise (ClientError code), log_call (UploadFileobj Fileobj Bucket Key) w).
Proof. intros Hf. rewrite s3_upload_fileobj_eq. cbn zeta. by rewrite Hf. Qed.




Lemma plain_name_not_empty name : plain_name name = true → name ≠ "".
Proof. intros H ->. done. Qed.

(** ** The helpers *)

Section Helpers.

Context (cfg : Config) (Hssm : ssm_client cfg = true).

(** Each helper in one equation. *)
Lemma get_ssm_parameter_eq name dec w :
  get_ssm_parameter cfg name dec w = (reading name w, log_call (GetParameter name dec) w).
Proof.
  unfold get_ssm_parameter, try_except_ClientError, ssm_get_parameter, reading.
  rewrite Hssm. cbn beta iota delta [negb]. rewrite !bind_unfold. unfold aws.
  cbn beta iota. destruct (fault_at 0 w) as [[code|exception]|]; cbn.
  - by case_bool_decide.
  - done.
  - by destruct (ssm w !! name).
Qed.

Lemma set_ssm_parameter_eq name value w :
  set_ssm_parameter cfg name value true w
  = let w' := log_call (PutParameter name value true) w in
    match fault_at 0 w with
    | None => (Return true, set_ssm (insert name value) w')
    | Some (ClientFault _) =>
        (Raise (HTTPException 500 ("Error communicating with AWS SSM to set " +:+ name)), w')
    | Some (OtherFault exception) => (Raise (OtherException exception), w')
    end.
Proof.
  unfold set_ssm_parameter, try_except_ClientError, ssm_put_parameter.
  rewrite Hssm. cbn beta iota zeta delta [negb]. rewrite !bind_unfold. unfold aws.
  cbn beta iota. destruct (fault_at 0 w) as [[code|exception]|]; cbn.
  - by rewrite andb_false_r.
  - done.
  - by destruct (ssm w !! name).
Qed.

(** A read that the environment lets through returns what the store holds,
    [None] for a name that is not there. *)
Lemma get_ssm_parameter_read name dec w :
  fault_at 0 w = None →
  get_ssm_parameter cfg name dec w
  = (Return (ssm w !! name), log_call (GetParameter name dec) w).
Proof. intros Hf. rewrite get_ssm_parameter_eq. unfold reading. by rewrite Hf. Qed.

(** A read failed with a [ClientError] raises 500, unless the error code
    is the one of [ParameterNotFound]. *)
Lemma get_ssm_parameter_fault name dec w code :
  fault_at 0 w = Some (ClientFault code) →
  code ≠ "ParameterNotFound" →
  get_ssm_parameter cfg name dec w
  = (Raise (HTTPException 500 ("Error communicating with AWS SSM to get " +:+ name)),
     log_call (GetParameter name dec) w).
Proof.
  intros Hf Hc. rewrite get_ssm_parameter_eq. unfold reading. rewrite Hf.
  by rewrite bool_decide_eq_false_2.
Qed.

(** An overwriting write that the environment lets through. *)
Lemma set_ssm_parameter_written name value w :
  fault_at 0 w = None →
  set_ssm_parameter cfg name value true w
  = (Return true, set_ssm (insert name value) (log_call (PutParameter name value true) w)).
Proof. intros Hf. rewrite set_ssm_parameter_eq. cbn zeta. by rewrite Hf. Qed.

(** An overwriting write failed with a [ClientError] raises
    [HTTPException]; it does not return [False]. *)
Lemma set_ssm_parameter_fault name value w code :
  fault_at 0 w = Some (ClientFault code) →
  set_ssm_parameter cfg name value true w
  = (Raise (HTTPException 500 ("Error communicating with AWS SSM to set " +:+ name)),
     log_call (PutParameter name value true) w).
Proof. intros Hf. rewrite set_ssm_parameter_eq. cbn zeta. by rewrite Hf. Qed.

(** An overwriting write failed with another exception lets it through. *)
Lemma set_ssm_parameter_broken name value w exception :
  fault_at 0 w = Some (OtherFault exception) →
  set_ssm_parameter cfg name value true w
  = (Raise (OtherException exception), log_call (PutParameter name value true) w).
Proof. intros Hf. rewrite set_ssm_parameter_eq. cbn zeta. by rewrite Hf. Qed.

(** With a client, [set_ssm_parameter(.., overwrite=True)] returns [True]
    or raises. *)
Lemma set_ssm_parameter_never_False name value w w' :
  set_ssm_parameter cfg name value true w ≠ (Return false, w').
Proof.
  rewrite set_ssm_parameter_eq. cbn zeta. by destruct (fault_at 0 w) as [[code|exception]|].
Qed.

End Helpers.

Lemma reading_Some name w v : reading name w = Return (Some v) → ssm w !! name = Some v.
Proof.
  unfold reading. destruct (fault_at 0 w) as [[code|exception]|]; [by case_bool_decide|done|].
  by intros [= ->].
Qed.

Lemma reading_Raise name w e :
  reading name w = Raise e →
  e = HTTPException 500 ("Error communicating with AWS SSM to get " +:+ name)
  ∨ ∃ exception,
      fault_at 0 w = Some (OtherFault exception) ∧ e = OtherException exception.
Proof.
  unfold reading. destruct (fault_at 0 w) as [[code|exception]|]; [| |done].
  - case_bool_decide; [done|]. intros [= <-]. by left.
  - intros [= <-]. right. by eexists.
Qed.

(** *** Exploring a route *)

(** Runs a route along every path: each call is replaced by its equation
    and each test of the route is split. *)
Ltac split_test :=
  match goal with
  | |- context [match reading ?n ?w with _ => _ end] =>
      let v := fresh "v" in let e := fresh "e" in let H := fresh "Hread" in
      destruct (reading n w) as [v|e] eqn:H
  | |- context [match fault_at 0 ?w with _ => _ end] =>
      let c := fresh "code" in let x := fresh "exception" in let H := fresh "Hfault" in
      destruct (fault_at 0 w) as [[c|x]|] eqn:H
  | |- context [match s3 ?w !! ?k with _ => _ end] =>
      let c := fresh "content" in let H := fresh "Hblob" in
      destruct (s3 w !! k) as [c|] eqn:H
  | |- context [match locate ?n with _ => _ end] =>
      let f := fresh "file" in let x := fresh "exception" in let H := fresh "Hplace" in
      destruct (locate n) as [f| |x] eqn:H
  | |- context [if ?a || ?b then _ else _] =>
      let H := fresh "Htest" in destruct (a || b) eqn:H
  | |- context [if bool_decide ?P then _ else _] =>
      let H := fresh "Htest" in destruct (bool_decide_reflect P) as [H|H]
  end.

Ltac explore :=
  unfold try_finally, try_except_ClientError;
  repeat first
    [ rewrite bind_unfold
    | rewrite get_ssm_parameter_eq by assumption
    | rewrite set_ssm_parameter_eq by assumption
    | rewrite s3_upload_fileobj_eq
    | rewrite s3_download_file_eq
    | progress cbn beta iota zeta delta [negb]
    | progress unfold ret, raise, add_task, TemporaryDirectory, close, modify
    | split_test ].

(** What a passed test of the tracked name says. *)
Lemma tracked_name_valid v :
  falsy v || bool_decide (v = Some "init") = false →
  ∃ name, v = Some name ∧ name ≠ "" ∧ name ≠ "init".
Proof.
  intros H. apply orb_false_elim in H as [Hf Hi].
  destruct v as [name|]; [|done]. exists name.
  apply bool_decide_eq_false in Hf, Hi. split; [done|]. split; congruence.
Qed.

(** Brings what the exploration has found into the terms of the first
    world. *)
Ltac tidy :=
  repeat match goal with
  | H : ¬ (_ ≠ _) |- _ => apply dec_stable in H
  | H : reading _ _ = Return (Some _) |- _ => apply reading_Some in H
  | H : reading _ _ = Raise _ |- _ =>
      let Hfault := fresh "Hfault" in
      apply reading_Raise in H as [H|[? [Hfault H]]]
  | H : falsy _ || bool_decide (_ = Some "init") = false |- _ =>
      let name := fresh "name" in
      apply tracked_name_valid in H as (name & -> & ? & ?)
  | H : ?v = Some _ |- _ => is_var v; subst v
  | H : ?e = HTTPException _ _ |- _ => is_var e; subst e
  | H : ?e = OtherException _ |- _ => is_var e; subst e
  end;
  unfold stores in *;
  cbn [ssm s3 tmp tmp_next outside background_tasks calls faults log_call set_ssm set_s3
       set_tmp set_tmp_next set_outside set_background_tasks path_dir path_name str] in *.

(** ** Running a route *)

(** Settles the side condition of a helper lemma: what the environment
    does to the call at hand. *)
Ltac fault_known :=
  autorewrite with world;
  match goal with
  | H : fault_at _ _ = _ |- _ => exact H
  | H : undisturbed _ _ |- _ => apply (undisturbed_fault_at _ _ _ H); lia
  end.

(** Runs a route along the path the hypotheses select: each step rewrites
    the call at the head of the route with the equation of its helper. *)
Ltac side_condition := first [ done | fault_known | eassumption ].

Ltac helper_equation :=
  first
    [ apply get_ssm_parameter_read; side_condition
    | eapply get_ssm_parameter_fault; side_condition
    | apply set_ssm_parameter_written; side_condition
    | eapply set_ssm_parameter_fault; side_condition
    | eapply set_ssm_parameter_broken; side_condition
    | eapply s3_download_file_found; side_condition
    | eapply s3_download_file_missing; side_condition
    | eapply s3_download_file_fault; side_condition
    | apply s3_upload_fileobj_stored; side_condition
    | eapply s3_upload_fileobj_fault; side_condition ].

Ltac primitive_equation :=
  lazymatch goal with
  | |- ret _ _ = _ => reflexivity
  | |- raise _ _ = _ => reflexivity
  | |- add_task _ _ = _ => reflexivity
  | |- TemporaryDirectory _ = _ => reflexivity
  | |- close _ _ = _ => reflexivity
  end.

Ltac run_route :=
  repeat first
    [ erewrite bind_Return by (helper_equation || primitive_equation)
    | erewrite bind_Raise by (helper_equation || primitive_equation)
    | progress cbn beta iota delta [negb orb andb] ].

(** ** Locked and unlocked gateways *)

(** A download that is let in and reads a lock that is not ["unlocked"]. *)
Lemma get_file_conflict cfg w who_are_you password :
  available cfg →
  undisturbed 2 w →
  ssm w !! SSM_PASSWORD_PARAMETER_NAME cfg = Some password →
  ssm w !! SSM_PARAMETER_NAME cfg ≠ Some "unlocked" →
  get_file cfg who_are_you password w
  = (Raise (HTTPException 409
              ("Cannot download as save is locked by "
                 +:+ str (ssm w !! SSM_PARAMETER_NAME cfg))),
     log_call (GetParameter (SSM_PARAMETER_NAME cfg) false)
       (log_call (GetParameter (SSM_PASSWORD_PARAMETER_NAME cfg) true) w)).
Proof.
  intros [Hs3 Hssm] Hq Hpw Hlock.
  unfold get_file. rewrite Hs3, Hssm. run_route.
  rewrite Hpw. rewrite bool_decide_eq_false_2 by (by intros []).
  run_route. cbn [ssm log_call].
  by rewrite bool_decide_eq_false_2 by done.
Qed.

(** C2. A download asked for while the lock is not ["unlocked"] is
    answered 409 after the two reads only, and neither store changes.
    The message names the holder: it is "Cannot download as save is
    locked by " followed by the value of the lock or, when the lock
    parameter is missing, by "None". *)
Theorem download_refused_while_locked cfg w who_are_you password :
  available cfg →
  undisturbed 2 w →
  ssm w !! SSM_PASSWORD_PARAMETER_NAME cfg = Some password →
  ssm w !! SSM_PARAMETER_NAME cfg ≠ Some "unlocked" →
  ∃ w',
    get_file cfg who_are_you password w
    = (Raise (HTTPException 409
                match ssm w !! SSM_PARAMETER_NAME cfg with
                | Some holder => "Cannot download as save is locked by " +:+ holder
                | None => "Cannot download as save is locked by None"
                end), w')
    ∧ stores w' = stores w
    ∧ tmp w' = tmp w
    ∧ calls w' = calls w ++ [GetParameter (SSM_PASSWORD_PARAMETER_NAME cfg) true;
                             GetParameter (SSM_PARAMETER_NAME cfg) false].
Proof.
  intros Hav Hq Hpw Hlock.
  eexists. split.
  - rewrite get_file_conflict by done. by destruct (ssm w !! SSM_PARAMETER_NAME cfg).
  - cbn. by rewrite <- app_assoc.
Qed.

Lemma download_refused_while_locked_witness :
  let w := example_world "alice" "report.csv" [] in
  ∃ w',
    get_file example_cfg "bob" "hunter2" w
    = (Raise (HTTPException 409 "Cannot download as save is locked by alice"), w')
    ∧ stores w' = stores w
    ∧ tmp w' = tmp w
    ∧ calls w' = calls w ++ [GetParameter (SSM_PASSWORD_PARAMETER_NAME example_cfg) true;
                             GetParameter (SSM_PARAMETER_NAME example_cfg) false].
Proof.
  refine (download_refused_while_locked example_cfg
            (example_world "alice" "report.csv" []) "bob" "hunter2" _ _ _ _).
  - split; reflexivity.
  - reflexivity.
  - vm_compute. reflexivity.
  - vm_compute. discriminate.
Defined.

(** C3. An upload asked for while the lock is ["unlocked"] is answered 409
    after the two reads only: the tracked filename, the lock and the
    bucket stay as they are. *)
Theorem upload_refused_while_unlocked cfg w who_are_you password file :
  available cfg →
  undisturbed 2 w →
  ssm w !! SSM_PASSWORD_PARAMETER_NAME cfg = Some password →
  UploadFile.filename file ≠ "" →
  ssm w !! SSM_PARAMETER_NAME cfg = Some "unlocked" →
  ∃ w',
    upload_file cfg who_are_you password file w
    = (Raise (HTTPException 409
                "Cannot upload: API lock is 'unlocked', indicating a file may already be present and downloadable."),
       w')
    ∧ stores w' = stores w
    ∧ calls w' = calls w ++ [GetParameter (SSM_PASSWORD_PARAMETER_NAME cfg) true;
                             GetParameter (SSM_PARAMETER_NAME cfg) false].
Proof.
  intros [Hs3 Hssm] Hq Hpw Hname Hlock.
  eexists. unfold upload_file. rewrite Hs3, Hssm. run_route.
  rewrite Hpw. rewrite bool_decide_eq_false_2 by (by intros []).
  rewrite bool_decide_eq_false_2 by done.
  run_route. cbn [ssm log_call]. rewrite Hlock.
  rewrite bool_decide_eq_false_2 by (by intros []).
  run_route.
  split; [reflexivity|]. cbn. by rewrite <- app_assoc.
Qed.

Lemma upload_refused_while_unlocked_witness :
  let w := example_world "unlocked" "report.csv" [] in
  let file := UploadFile.mk "report.csv" (list_byte_of_string "x,y,z") in
  ∃ w',
    upload_file example_cfg "bob" "hunter2" file w
    = (Raise (HTTPException 409
                "Cannot upload: API lock is 'unlocked', indicating a file may already be present and downloadable."),
       w')
    ∧ stores w' = stores w
    ∧ calls w' = calls w ++ [GetParameter (SSM_PASSWORD_PARAMETER_NAME example_cfg) true;
                             GetParameter (SSM_PARAMETER_NAME example_cfg) false].
Proof.
  apply (upload_refused_while_unlocked example_cfg
           (example_world "unlocked" "report.csv" []) "bob" "hunter2"
           (UploadFile.mk "report.csv" (list_byte_of_string "x,y,z"))).
  - split; reflexivity.
  - reflexivity.
  - vm_compute. reflexivity.
  - discriminate.
  - vm_compute. reflexivity.
Defined.

(** C4. A download asked for while the lock is ["unlocked"] and the tracked
    filename is missing, empty or ["init"] is answered 404 after the three
    reads only: the lock and everything else in the two stores stay as
    they are, and no staging directory is made. *)
Theorem download_without_tracked_file cfg w who_are_you password :
  available cfg →
  undisturbed 3 w →
  ssm w !! SSM_PASSWORD_PARAMETER_NAME cfg = Some password →
  ssm w !! SSM_PARAMETER_NAME cfg = Some "unlocked" →
  ssm w !! SSM_FILENAME_PARAMETER_NAME cfg = None
  ∨ ssm w !! SSM_FILENAME_PARAMETER_NAME cfg = Some ""
  ∨ ssm w !! SSM_FILENAME_PARAMETER_NAME cfg = Some "init" →
  ∃ w',
    get_file cfg who_are_you password w
    = (Raise (HTTPException 404 "No valid save filename found to download."), w')
    ∧ stores w' = stores w
    ∧ tmp w' = tmp w
    ∧ calls w' = calls w ++ [GetParameter (SSM_PASSWORD_PARAMETER_NAME cfg) true;
                             GetParameter (SSM_PARAMETER_NAME cfg) false;
                             GetParameter (SSM_FILENAME_PARAMETER_NAME cfg) false].
Proof.
  intros [Hs3 Hssm] Hq Hpw Hlock Hname.
  eexists. unfold get_file. rewrite Hs3, Hssm. run_route.
  rewrite Hpw. rewrite bool_decide_eq_false_2 by (by intros []).
  run_route. cbn [ssm log_call]. rewrite Hlock.
  rewrite bool_decide_eq_true_2 by done.
  run_route. cbn [ssm log_call].
  assert (falsy (ssm w !! SSM_FILENAME_PARAMETER_NAME cfg)
          || bool_decide (ssm w !! SSM_FILENAME_PARAMETER_NAME cfg = Some "init") = true) as ->.
  { destruct Hname as [-> | [-> | ->]]; reflexivity. }
  split; [reflexivity|]. cbn. by rewrite <- !app_assoc.
Qed.

Lemma download_without_tracked_file_witness :
  let w := example_world "unlocked" "init" [] in
  ∃ w',
    get_file example_cfg "alice" "hunter2" w
    = (Raise (HTTPException 404 "No valid save filename found to download."), w')
    ∧ stores w' = stores w
    ∧ tmp w' = tmp w
    ∧ calls w' = calls w ++ [GetParameter (SSM_PASSWORD_PARAMETER_NAME example_cfg) true;
                             GetParameter (SSM_PARAMETER_NAME example_cfg) false;
                             GetParameter (SSM_FILENAME_PARAMETER_NAME example_cfg) false].
Proof.
  apply (download_without_tracked_file example_cfg
           (example_world "unlocked" "init" []) "alice" "hunter2").
  - split; reflexivity.
  - reflexivity.
  - vm_compute. reflexivity.
  - vm_compute. reflexivity.
  - right. right. vm_compute. reflexivity.
Defined.

(** ** Authorization *)

(** What both routes do once the password read has returned something
    else than the supplied password. *)
Lemma mismatch_rejected cfg w who_are_you password file :
  available cfg →
  fault_at 0 w = None →
  ssm w !! SSM_PASSWORD_PARAMETER_NAME cfg ≠ Some password →
  let w' := log_call (GetParameter (SSM_PASSWORD_PARAMETER_NAME cfg) true) w in
  get_file cfg who_are_you password w
  = (Raise (HTTPException 403 "Provided password not valid"), w')
  ∧ upload_file cfg who_are_you password file w
    = (Raise (HTTPException 403 "Provided password not valid"), w').
Proof.
  intros [Hs3 Hssm] Hf Hpw. unfold get_file, upload_file. rewrite Hs3, Hssm.
  run_route. rewrite bool_decide_eq_true_2 by done. done.
Qed.

(** C5. A request whose password differs from the stored secret is answered
    403 by both routes, whatever the lock and the tracked filename are;
    the only call made is the read of the password, so the lock is not
    read and neither store changes. *)
Theorem wrong_password_rejected cfg w who_are_you password secret file :
  available cfg →
  fault_at 0 w = None →
  ssm w !! SSM_PASSWORD_PARAMETER_NAME cfg = Some secret →
  password ≠ secret →
  ∃ wg wu,
    get_file cfg who_are_you password w
    = (Raise (HTTPException 403 "Provided password not valid"), wg)
    ∧ upload_file cfg who_are_you password file w
      = (Raise (HTTPException 403 "Provided password not valid"), wu)
    ∧ stores wg = stores w ∧ stores wu = stores w
    ∧ calls wg = calls w ++ [GetParameter (SSM_PASSWORD_PARAMETER_NAME cfg) true]
    ∧ calls wu = calls w ++ [GetParameter (SSM_PASSWORD_PARAMETER_NAME cfg) true].
Proof.
  intros Hav Hf Hsecret Hne.
  destruct (mismatch_rejected cfg w who_are_you password file) as [Hg Hu]; [done..| |].
  { rewrite Hsecret. congruence. }
  do 2 eexists. split; [exact Hg|]. split; [exact Hu|]. done.
Qed.

Lemma wrong_password_rejected_witness :
  let w := example_world "unlocked" "report.csv" [] in
  let file := UploadFile.mk "report.csv" (list_byte_of_string "x,y,z") in
  ∃ wg wu,
    get_file example_cfg "mallory" "letmein" w
    = (Raise (HTTPException 403 "Provided password not valid"), wg)
    ∧ upload_file example_cfg "mallory" "letmein" file w
      = (Raise (HTTPException 403 "Provided password not valid"), wu)
    ∧ stores wg = stores w ∧ stores wu = stores w
    ∧ calls wg = calls w ++ [GetParameter (SSM_PASSWORD_PARAMETER_NAME example_cfg) true]
    ∧ calls wu = calls w ++ [GetParameter (SSM_PASSWORD_PARAMETER_NAME example_cfg) true].
Proof.
  apply (wrong_password_rejected example_cfg (example_world "unlocked" "report.csv" [])
           "mallory" "letmein" "hunter2"
           (UploadFile.mk "report.csv" (list_byte_of_string "x,y,z"))).
  - split; reflexivity.
  - reflexivity.
  - vm_compute. reflexivity.
  - discriminate.
Defined.

(** C10. When the password parameter is not in the parameter store, the
    read returns [None], which equals no supplied password: both routes
    answer 403 to every request. *)
Theorem missing_password_rejects_all cfg w who_are_you password file :
  available cfg →
  fault_at 0 w = None →
  ssm w !! SSM_PASSWORD_PARAMETER_NAME cfg = None →
  ∃ wg wu,
    get_ssm_parameter cfg (SSM_PASSWORD_PARAMETER_NAME cfg) true w = (Return None, wg)
    ∧ get_file cfg who_are_you password w
      = (Raise (HTTPException 403 "Provided password not valid"), wg)
    ∧ upload_file cfg who_are_you password file w
      = (Raise (HTTPException 403 "Provided password not valid"), wu)
    ∧ stores wg = stores w ∧ stores wu = stores w.
Proof.
  intros Hav Hf Hnone.
  destruct (mismatch_rejected cfg w who_are_you password file) as [Hg Hu]; [done..| |].
  { rewrite Hnone. congruence. }
  do 2 eexists. split; [|split; [exact Hg|split; [exact Hu|done]]].
  destruct Hav as [_ Hssm]. rewrite get_ssm_parameter_read by done. by rewrite Hnone.
Qed.

Lemma missing_password_rejects_all_witness :
  let w := mkWorld (<["/save/lock" := "unlocked"]> ∅) ∅ ∅ 0 ∅ [] [] [] in
  let file := UploadFile.mk "report.csv" (list_byte_of_string "x,y,z") in
  ∃ wg wu,
    get_ssm_parameter example_cfg (SSM_PASSWORD_PARAMETER_NAME example_cfg) true w
    = (Return None, wg)
    ∧ get_file example_cfg "alice" "" w
      = (Raise (HTTPException 403 "Provided password not valid"), wg)
    ∧ upload_file example_cfg "alice" "" file w
      = (Raise (HTTPException 403 "Provided password not valid"), wu)
    ∧ stores wg = stores w ∧ stores wu = stores w.
Proof.
  apply (missing_password_rejects_all example_cfg
           (mkWorld (<["/save/lock" := "unlocked"]> ∅) ∅ ∅ 0 ∅ [] [] [])
           "alice" ""
           (UploadFile.mk "report.csv" (list_byte_of_string "x,y,z"))).
  - split; reflexivity.
  - reflexivity.
  - vm_compute. reflexivity.
Defined.

(** ** Uploads *)

(** An authorized upload with a file name, up to the test of the lock. *)
Lemma upload_file_admitted cfg w who_are_you password file :
  available cfg →
  fault_at 0 w = None →
  fault_at 1 w = None →
  ssm w !! SSM_PASSWORD_PARAMETER_NAME cfg = Some password →
  UploadFile.filename file ≠ "" →
  ssm w !! SSM_PARAMETER_NAME cfg ≠ Some "unlocked" →
  upload_file cfg who_are_you password file w
  = try_finally
      (try_except_ClientError
         (s3_upload_fileobj (UploadFile.file file) (S3_BUCKET_NAME cfg)
                            (UploadFile.filename file) ;;;
          tracked <- set_ssm_parameter cfg (SSM_FILENAME_PARAMETER_NAME cfg)
                                       (UploadFile.filename file) true ;;
          if negb tracked then
            raise (HTTPException 500
                     "File uploaded but failed to update tracking parameter.")
          else
          set_ssm_parameter cfg (SSM_PARAMETER_NAME cfg) LOCK_VALUE_UNLOCKED true ;;;
          ret ("File '" +:+ UploadFile.filename file +:+ "' uploaded successfully by '"
                 +:+ who_are_you +:+ "'."))
         (λ code, raise (HTTPException 500 "Error uploading file to S3.")))
      (close file)
      (log_call (GetParameter (SSM_PARAMETER_NAME cfg) false)
         (log_call (GetParameter (SSM_PASSWORD_PARAMETER_NAME cfg) true) w)).
Proof.
  intros [Hs3 Hssm] Hf0 Hf1 Hpw Hname Hlock.
  unfold upload_file. rewrite Hs3, Hssm. run_route.
  rewrite Hpw. rewrite bool_decide_eq_false_2 by (by intros []).
  rewrite bool_decide_eq_false_2 by done.
  run_route. cbn [ssm log_call].
  by rewrite bool_decide_eq_true_2 by done.
Qed.

(** C6. When the blob has been written and the write of the tracked
    filename fails, the upload is answered 500; the parameter store,
    the lock with it, is as before, the blob is in the bucket, and the
    write of the lock was never issued. *)
Theorem tracking_failure_keeps_lock cfg w who_are_you password file code :
  available cfg →
  undisturbed 3 w →
  fault_at 3 w = Some (ClientFault code) →
  ssm w !! SSM_PASSWORD_PARAMETER_NAME cfg = Some password →
  UploadFile.filename file ≠ "" →
  ssm w !! SSM_PARAMETER_NAME cfg ≠ Some "unlocked" →
  ∃ w',
    upload_file cfg who_are_you password file w
    = (Raise (HTTPException 500
                ("Error communicating with AWS SSM to set "
                   +:+ SSM_FILENAME_PARAMETER_NAME cfg)), w')
    ∧ ssm w' = ssm w
    ∧ s3 w' = <[(S3_BUCKET_NAME cfg, UploadFile.filename file) := UploadFile.file file]> (s3 w)
    ∧ calls w' = calls w ++ [GetParameter (SSM_PASSWORD_PARAMETER_NAME cfg) true;
                             GetParameter (SSM_PARAMETER_NAME cfg) false;
                             UploadFileobj (UploadFile.file file) (S3_BUCKET_NAME cfg)
                                           (UploadFile.filename file);
                             PutParameter (SSM_FILENAME_PARAMETER_NAME cfg)
                                          (UploadFile.filename file) true].
Proof.
  intros Hav Hq Hf Hpw Hname Hlock.
  rewrite upload_file_admitted by (done || fault_known). destruct Hav as [Hs3 Hssm].
  eexists. unfold try_finally, try_except_ClientError. run_route.
  split; [reflexivity|]. cbn. by rewrite <- !app_assoc.
Qed.

Lemma tracking_failure_keeps_lock_witness :
  let cfg := example_cfg in
  let w := example_world "alice" "report.csv" [None; None; None; Some (ClientFault "AccessDeniedException")] in
  let file := UploadFile.mk "report.csv" (list_byte_of_string "x,y,z") in
  ∃ w',
    upload_file cfg "alice" "hunter2" file w
    = (Raise (HTTPException 500
                ("Error communicating with AWS SSM to set "
                   +:+ SSM_FILENAME_PARAMETER_NAME cfg)), w')
    ∧ ssm w' = ssm w
    ∧ s3 w' = <[(S3_BUCKET_NAME cfg, UploadFile.filename file) := UploadFile.file file]> (s3 w)
    ∧ calls w' = calls w ++ [GetParameter (SSM_PASSWORD_PARAMETER_NAME cfg) true;
                             GetParameter (SSM_PARAMETER_NAME cfg) false;
                             UploadFileobj (UploadFile.file file) (S3_BUCKET_NAME cfg)
                                           (UploadFile.filename file);
                             PutParameter (SSM_FILENAME_PARAMETER_NAME cfg)
                                          (UploadFile.filename file) true].
Proof.
  apply (tracking_failure_keeps_lock example_cfg
           (example_world "alice" "report.csv" [None; None; None; Some (ClientFault "AccessDeniedException")])
           "alice" "hunter2"
           (UploadFile.mk "report.csv" (list_byte_of_string "x,y,z"))
           "AccessDeniedException").
  - split; reflexivity.
  - reflexivity.
  - reflexivity.
  - vm_compute. reflexivity.
  - discriminate.
  - vm_compute. discriminate.
Defined.

(** An admitted upload whose blob write and tracked-filename write go
    through: what is left is the write of the lock, and the upload ends
    as that write does. *)
Lemma upload_file_tracked cfg w who_are_you password file :
  available cfg →
  undisturbed 4 w →
  ssm w !! SSM_PASSWORD_PARAMETER_NAME cfg = Some password →
  UploadFile.filename file ≠ "" →
  ssm w !! SSM_PARAMETER_NAME cfg ≠ Some "unlocked" →
  ∃ w',
    upload_file cfg who_are_you password file w
    = (match fault_at 4 w with
       | None => Return (uploaded file who_are_you)
       | Some (ClientFault _) =>
           Raise (HTTPException 500
                    ("Error communicating with AWS SSM to set " +:+ SSM_PARAMETER_NAME cfg))
       | Some (OtherFault exception) => Raise (OtherException exception)
       end, w')
    ∧ ssm w'
      = (let tracked := <[SSM_FILENAME_PARAMETER_NAME cfg := UploadFile.filename file]> (ssm w) in
         match fault_at 4 w with
         | None => <[SSM_PARAMETER_NAME cfg := "unlocked"]> tracked
         | Some _ => tracked
         end)
    ∧ s3 w' = <[(S3_BUCKET_NAME cfg, UploadFile.filename file) := UploadFile.file file]> (s3 w)
    ∧ tmp w' = tmp w
    ∧ faults w' = drop 5 (faults w)
    ∧ calls w' = calls w ++ [GetParameter (SSM_PASSWORD_PARAMETER_NAME cfg) true;
                             GetParameter (SSM_PARAMETER_NAME cfg) false;
                             UploadFileobj (UploadFile.file file) (S3_BUCKET_NAME cfg)
                                           (UploadFile.filename file);
                             PutParameter (SSM_FILENAME_PARAMETER_NAME cfg)
                                          (UploadFile.filename file) true;
                             PutParameter (SSM_PARAMETER_NAME cfg) "unlocked" true].
Proof.
  intros Hav Hq Hpw Hname Hlock.
  rewrite upload_file_admitted by (done || fault_known). destruct Hav as [Hs3 Hssm].
  unfold try_finally, try_except_ClientError.
  destruct (fault_at 4 w) as [[code|exception]|] eqn:Hf; eexists; run_route.
  all: split; [reflexivity|]; cbn; rewrite <- !app_assoc; repeat split; try done.
  all: by destruct (faults w) as [|? [|? [|? [|? [|? ?]]]]].
Qed.

(** C7, as the specification has it, does not hold: here the write of the
    lock is the only call that fails, and the upload is answered 500
    instead of the acknowledgement. *)
Lemma unlock_failure_is_not_swallowed :
  let w := example_world "alice" "report.csv"
             [None; None; None; None; Some (ClientFault "InternalServerError")] in
  let file := UploadFile.mk "report.csv" (list_byte_of_string "x,y,z") in
  undisturbed 4 w
  ∧ fault_at 4 w = Some (ClientFault "InternalServerError")
  ∧ (upload_file example_cfg "bob" "hunter2" file w).1
    = Raise (HTTPException 500 "Error communicating with AWS SSM to set /save/lock")
  ∧ ¬ ∃ w', upload_file example_cfg "bob" "hunter2" file w
            = (Return (uploaded file "bob"), w').
Proof.
  cbv zeta. split; [reflexivity|]. split; [reflexivity|].
  assert ((upload_file example_cfg "bob" "hunter2"
             (UploadFile.mk "report.csv" (list_byte_of_string "x,y,z"))
             (example_world "alice" "report.csv"
                [None; None; None; None; Some (ClientFault "InternalServerError")])).1
          = Raise (HTTPException 500 "Error communicating with AWS SSM to set /save/lock"))
    as Hrun by (vm_compute; reflexivity).
  split; [exact Hrun|]. intros [w' Hw']. rewrite Hw' in Hrun. discriminate.
Qed.

(** C7, amended. The write of the lock decides how the upload ends: when
    it fails the upload is answered 500, with the blob and the tracked
    filename already written and the lock as it was written last; the
    acknowledgement is returned when it succeeds. *)
Theorem upload_ends_as_unlock_does cfg w who_are_you password file :
  available cfg →
  undisturbed 4 w →
  ssm w !! SSM_PASSWORD_PARAMETER_NAME cfg = Some password →
  UploadFile.filename file ≠ "" →
  ssm w !! SSM_PARAMETER_NAME cfg ≠ Some "unlocked" →
  ∃ w',
    upload_file cfg who_are_you password file w
    = (match fault_at 4 w with
       | None => Return (uploaded file who_are_you)
       | Some (ClientFault _) =>
           Raise (HTTPException 500
                    ("Error communicating with AWS SSM to set " +:+ SSM_PARAMETER_NAME cfg))
       | Some (OtherFault exception) => Raise (OtherException exception)
       end, w')
    ∧ ssm w'
      = (let tracked := <[SSM_FILENAME_PARAMETER_NAME cfg := UploadFile.filename file]> (ssm w) in
         match fault_at 4 w with
         | None => <[SSM_PARAMETER_NAME cfg := "unlocked"]> tracked
         | Some _ => tracked
         end)
    ∧ s3 w' = <[(S3_BUCKET_NAME cfg, UploadFile.filename file) := UploadFile.file file]> (s3 w).
Proof.
  intros Hav Hq Hpw Hname Hlock.
  destruct (upload_file_tracked cfg w who_are_you password file) as (w' & Hrun & Hssm & Hs3 & _);
    [done..|].
  by exists w'.
Qed.

Lemma upload_ends_as_unlock_does_witness :
  let cfg := example_cfg in
  let w := example_world "alice" "report.csv"
             [None; None; None; None; Some (ClientFault "InternalServerError")] in
  let file := UploadFile.mk "report.csv" (list_byte_of_string "x,y,z") in
  ∃ w',
    upload_file cfg "bob" "hunter2" file w
    = (match fault_at 4 w with
       | None => Return (uploaded file "bob")
       | Some (ClientFault _) =>
           Raise (HTTPException 500
                    ("Error communicating with AWS SSM to set " +:+ SSM_PARAMETER_NAME cfg))
       | Some (OtherFault exception) => Raise (OtherException exception)
       end, w')
    ∧ ssm w'
      = (let tracked := <[SSM_FILENAME_PARAMETER_NAME cfg := UploadFile.filename file]> (ssm w) in
         match fault_at 4 w with
         | None => <[SSM_PARAMETER_NAME cfg := "unlocked"]> tracked
         | Some _ => tracked
         end)
    ∧ s3 w' = <[(S3_BUCKET_NAME cfg, UploadFile.filename file) := UploadFile.file file]> (s3 w).
Proof.
  apply (upload_ends_as_unlock_does example_cfg
           (example_world "alice" "report.csv"
              [None; None; None; None; Some (ClientFault "InternalServerError")])
           "bob" "hunter2"
           (UploadFile.mk "report.csv" (list_byte_of_string "x,y,z"))).
  - split; reflexivity.
  - reflexivity.
  - vm_compute. reflexivity.
  - discriminate.
  - vm_compute. discriminate.
Defined.

(** ** A missing lock *)

(** C9. When the lock is not in the parameter store it does not count as
    ["unlocked"]: a download is answered 409 and changes nothing, and an
    upload goes through, with the same answer and the same stores in the
    end as when some identity holds the lock. *)
Theorem missing_lock_is_locked cfg w who_are_you password file :
  available cfg →
  undisturbed 5 w →
  ssm w !! SSM_PASSWORD_PARAMETER_NAME cfg = Some password →
  UploadFile.filename file ≠ "" →
  ssm w !! SSM_PARAMETER_NAME cfg = None →
  (∃ wg,
     get_file cfg who_are_you password w
     = (Raise (HTTPException 409 "Cannot download as save is locked by None"), wg)
     ∧ stores wg = stores w)
  ∧ (∃ wu,
       upload_file cfg who_are_you password file w
       = (Return (uploaded file who_are_you), wu)
       ∧ s3 wu = <[(S3_BUCKET_NAME cfg, UploadFile.filename file) := UploadFile.file file]> (s3 w)
       ∧ ssm wu = <[SSM_PARAMETER_NAME cfg := "unlocked"]>
                    (<[SSM_FILENAME_PARAMETER_NAME cfg := UploadFile.filename file]> (ssm w))
       ∧ ∀ holder, holder ≠ "unlocked" →
           ∃ wl,
             upload_file cfg who_are_you password file
                         (set_ssm (insert (SSM_PARAMETER_NAME cfg) holder) w)
             = (Return (uploaded file who_are_you), wl)
             ∧ stores wl = stores wu).
Proof.
  intros Hav Hq Hpw Hname Hlock.
  assert (undisturbed 4 w) as Hq4.
  { unfold undisturbed in *. destruct (faults w) as [|? [|? [|? [|? [|? ?]]]]]; try done.
    simpl in *. by repeat (apply andb_prop in Hq as [-> Hq]). }
  assert (fault_at 4 w = None) as Hf4 by fault_known.
  split.
  - assert (get_file cfg who_are_you password w
            = (Raise (HTTPException 409 "Cannot download as save is locked by None"),
               log_call (GetParameter (SSM_PARAMETER_NAME cfg) false)
                 (log_call (GetParameter (SSM_PASSWORD_PARAMETER_NAME cfg) true) w))) as ->.
    { destruct Hav as [Hs3 Hssm]. unfold get_file. rewrite Hs3, Hssm. run_route.
      rewrite Hpw. rewrite bool_decide_eq_false_2 by (by intros []).
      run_route. cbn [ssm log_call]. rewrite Hlock. done. }
    by eexists.
  - destruct (upload_file_tracked cfg w who_are_you password file)
      as (wu & Hrun & Hssm & Hs3 & _); [done | done | done | done | by rewrite Hlock |].
    rewrite Hf4 in Hrun, Hssm. exists wu. repeat split; [done..|].
    intros holder Hholder.
    assert (SSM_PASSWORD_PARAMETER_NAME cfg ≠ SSM_PARAMETER_NAME cfg) as Hne by congruence.
    destruct (upload_file_tracked cfg (set_ssm (insert (SSM_PARAMETER_NAME cfg) holder) w)
                who_are_you password file) as (wl & Hrunl & Hssml & Hs3l & _); [done | done | ..].
    { cbn [ssm set_ssm]. by rewrite lookup_insert_ne. }
    { done. }
    { cbn [ssm set_ssm]. rewrite lookup_insert_eq. congruence. }
    change (fault_at 4 (set_ssm (insert (SSM_PARAMETER_NAME cfg) holder) w))
      with (fault_at 4 w) in Hrunl, Hssml.
    rewrite Hf4 in Hrunl, Hssml. exists wl. split; [done|].
    unfold stores. rewrite Hssm, Hs3, Hssml, Hs3l. cbn [ssm s3 set_ssm]. f_equal.
    destruct (decide (SSM_FILENAME_PARAMETER_NAME cfg = SSM_PARAMETER_NAME cfg)) as [->|Hfn].
    + by rewrite !insert_insert_eq.
    + rewrite (insert_insert_ne _ (SSM_FILENAME_PARAMETER_NAME cfg)) by done.
      by rewrite insert_insert_eq.
Qed.

Lemma missing_lock_is_locked_witness :
  let cfg := example_cfg in
  let w := mkWorld (<["/save/filename" := "init"]> (<["/save/password" := "hunter2"]> ∅))
                   ∅ ∅ 0 ∅ [] [] [] in
  let file := UploadFile.mk "report.csv" (list_byte_of_string "a,b,c") in
  (∃ wg,
     get_file cfg "alice" "hunter2" w
     = (Raise (HTTPException 409 "Cannot download as save is locked by None"), wg)
     ∧ stores wg = stores w)
  ∧ (∃ wu,
       upload_file cfg "alice" "hunter2" file w
       = (Return (uploaded file "alice"), wu)
       ∧ s3 wu = <[(S3_BUCKET_NAME cfg, UploadFile.filename file) := UploadFile.file file]> (s3 w)
       ∧ ssm wu = <[SSM_PARAMETER_NAME cfg := "unlocked"]>
                    (<[SSM_FILENAME_PARAMETER_NAME cfg := UploadFile.filename file]> (ssm w))
       ∧ ∀ holder, holder ≠ "unlocked" →
           ∃ wl,
             upload_file cfg "alice" "hunter2" file
                         (set_ssm (insert (SSM_PARAMETER_NAME cfg) holder) w)
             = (Return (uploaded file "alice"), wl)
             ∧ stores wl = stores wu).
Proof.
  apply (missing_lock_is_locked example_cfg
           (mkWorld (<["/save/filename" := "init"]> (<["/save/password" := "hunter2"]> ∅))
                    ∅ ∅ 0 ∅ [] [] [])
           "alice" "hunter2"
           (UploadFile.mk "report.csv" (list_byte_of_string "a,b,c"))).
  - split; reflexivity.
  - reflexivity.
  - vm_compute. reflexivity.
  - discriminate.
  - vm_compute. reflexivity.
Defined.

(** ** Round trip *)



(** The staged file is what the response sends. *)
Lemma staged_body (t : gmap nat (gmap string (list byte))) d name content :
  alter (insert name content) d (<[d := ∅]> t) !! d ≫= (λ dir, dir !! name) = Some content.
Proof.
  rewrite lookup_alter_eq, lookup_insert_eq. simpl. by rewrite lookup_insert_eq.
Qed.


(** The same round trip breaks on a name with a directory part: the
    upload succeeds, and the download raises when it opens the local
    file, since the staging directory has no such subdirectory. *)
Lemma round_trip_fails_for_subdirectory :
  let w := example_world "alice" "report.csv" [] in
  let file := UploadFile.mk "sub/report.csv" (list_byte_of_string "x,y,z") in
  let up := upload_file example_cfg "bob" "hunter2" file w in
  up.1 = Return (uploaded file "bob")
  ∧ undisturbed 5 up.2
  ∧ (get_file example_cfg "alice" "hunter2" up.2).1
    = Raise (OtherException "FileNotFoundError").
Proof. cbv zeta. repeat split; vm_compute; reflexivity. Qed.



(** ** The staging directory of a download *)

(** A download that is let in and finds a tracked name, up to the point
    where the staging directory exists; [d] is that directory. *)
Lemma get_file_staged cfg w who_are_you password name :
  available cfg →
  undisturbed 3 w →
  ssm w !! SSM_PASSWORD_PARAMETER_NAME cfg = Some password →
  ssm w !! SSM_PARAMETER_NAME cfg = Some "unlocked" →
  ssm w !! SSM_FILENAME_PARAMETER_NAME cfg = Some name →
  name ≠ "" →
  name ≠ "init" →
  let d := tmp_next w in
  get_file cfg who_are_you password w
  = try_except_ClientError
      (s3_download_file (S3_BUCKET_NAME cfg) name (mkPath d name) ;;;
       locked <- set_ssm_parameter cfg (SSM_PARAMETER_NAME cfg) who_are_you true ;;
       if locked then
         add_task (clean_temp_dir_task d) ;;;
         ret (FileResponse.mk (mkPath d name) name "application/octet-stream")
       else
         add_task (clean_temp_dir_task d) ;;;
         raise (HTTPException 500 "Failed to update API lock after download."))
      (λ code,
        add_task (clean_temp_dir_task d) ;;;
        if bool_decide (code = "NoSuchKey") || bool_decide (code = "404") then
          raise (HTTPException 404 ("Save file '" +:+ name +:+ "' not found in S3."))
        else
          raise (HTTPException 500 "Error downloading file from S3."))
      (set_tmp_next (S d)
         (set_tmp (insert d ∅)
            (log_call (GetParameter (SSM_FILENAME_PARAMETER_NAME cfg) false)
               (log_call (GetParameter (SSM_PARAMETER_NAME cfg) false)
                  (log_call (GetParameter (SSM_PASSWORD_PARAMETER_NAME cfg) true) w))))).
Proof.
  intros [Hs3 Hssm] Hq Hpw Hlock Hname Hne Hinit d.
  unfold get_file. rewrite Hs3, Hssm. run_route.
  rewrite Hpw. rewrite bool_decide_eq_false_2 by (by intros []).
  run_route. cbn [ssm log_call]. rewrite Hlock.
  rewrite bool_decide_eq_true_2 by done.
  run_route. cbn [ssm log_call]. rewrite Hname.
  cbn [falsy str]. rewrite !bool_decide_eq_false_2 by congruence.
  by run_route.
Qed.

(** Exit by "blob not found": 404, and the cleanup is scheduled. *)
Lemma get_file_blob_missing cfg w who_are_you password name :
  available cfg →
  undisturbed 4 w →
  ssm w !! SSM_PASSWORD_PARAMETER_NAME cfg = Some password →
  ssm w !! SSM_PARAMETER_NAME cfg = Some "unlocked" →
  ssm w !! SSM_FILENAME_PARAMETER_NAME cfg = Some name →
  name ≠ "" →
  name ≠ "init" →
  s3 w !! (S3_BUCKET_NAME cfg, name) = None →
  ∃ w',
    get_file cfg who_are_you password w
    = (Raise (HTTPException 404 ("Save file '" +:+ name +:+ "' not found in S3.")), w')
    ∧ stores w' = stores w
    ∧ background_tasks w' = background_tasks w ++ [clean_temp_dir_task (tmp_next w)].
Proof.
  intros Hav Hq Hpw Hlock Hname Hne Hinit Hblob.
  rewrite (get_file_staged cfg w who_are_you password name) by
    (first [done | unfold undisturbed in *;
                   destruct (faults w) as [|? [|? [|? [|? ?]]]]; try done;
                   simpl in *; by repeat (apply andb_prop in Hq as [-> Hq])]).
  destruct Hav as [Hs3 Hssm]. eexists.
  erewrite try_except_ClientError_caught.
  2:{ erewrite bind_Raise; [reflexivity|]. apply s3_download_file_missing; [fault_known|done]. }
  run_route. done.
Qed.

(** Exit by transfer error: 404 or 500 by the error code, and the cleanup
    is scheduled. *)
Lemma get_file_transfer_error cfg w who_are_you password name code :
  available cfg →
  undisturbed 3 w →
  fault_at 3 w = Some (ClientFault code) →
  ssm w !! SSM_PASSWORD_PARAMETER_NAME cfg = Some password →
  ssm w !! SSM_PARAMETER_NAME cfg = Some "unlocked" →
  ssm w !! SSM_FILENAME_PARAMETER_NAME cfg = Some name →
  name ≠ "" →
  name ≠ "init" →
  ∃ w',
    get_file cfg who_are_you password w
    = (Raise (if bool_decide (code = "NoSuchKey") || bool_decide (code = "404")
              then HTTPException 404 ("Save file '" +:+ name +:+ "' not found in S3.")
              else HTTPException 500 "Error downloading file from S3."), w')
    ∧ stores w' = stores w
    ∧ background_tasks w' = background_tasks w ++ [clean_temp_dir_task (tmp_next w)].
Proof.
  intros Hav Hq Hf Hpw Hlock Hname Hne Hinit.
  rewrite (get_file_staged cfg w who_are_you password name) by done.
  destruct Hav as [Hs3 Hssm]. eexists.
  erewrite try_except_ClientError_caught.
  2:{ erewrite bind_Raise; [reflexivity|]. apply s3_download_file_fault. fault_known. }
  run_route. by destruct (bool_decide (code = "NoSuchKey") || bool_decide (code = "404")).
Qed.

(** Exit by failure of the lock write: [set_ssm_parameter] raises
    [HTTPException], which the [except ClientError] clause lets through
    and which skips the [else] branch that schedules the cleanup.  At
    the exit the staging directory holds the blob and no task is
    scheduled for it: it is removed when the [TemporaryDirectory] is
    collected. *)
Lemma get_file_lock_write_failed cfg w who_are_you password name content file code :
  available cfg →
  undisturbed 4 w →
  fault_at 4 w = Some (ClientFault code) →
  ssm w !! SSM_PASSWORD_PARAMETER_NAME cfg = Some password →
  ssm w !! SSM_PARAMETER_NAME cfg = Some "unlocked" →
  ssm w !! SSM_FILENAME_PARAMETER_NAME cfg = Some name →
  name ≠ "" →
  name ≠ "init" →
  locate name = Inside file →
  s3 w !! (S3_BUCKET_NAME cfg, name) = Some content →
  ∃ w',
    get_file cfg who_are_you password w
    = (Raise (HTTPException 500
                ("Error communicating with AWS SSM to set " +:+ SSM_PARAMETER_NAME cfg)), w')
    ∧ stores w' = stores w
    ∧ tmp w' !! tmp_next w = Some {[file := content]}
    ∧ background_tasks w' = background_tasks w.
Proof.
  intros Hav Hq Hf Hpw Hlock Hname Hne Hinit Hplace Hblob.
  rewrite (get_file_staged cfg w who_are_you password name) by
    (first [done | unfold undisturbed in *;
                   destruct (faults w) as [|? [|? [|? [|? ?]]]]; try done;
                   simpl in *; by repeat (apply andb_prop in Hq as [-> Hq])]).
  destruct Hav as [Hs3 Hssm]. eexists.
  erewrite try_except_HTTPException.
  2:{ erewrite bind_Return by (eapply s3_download_file_found; [fault_known|done|done]).
      erewrite bind_Raise; [reflexivity|].
      apply (set_ssm_parameter_fault cfg Hssm _ _ _ code). fault_known. }
  split; [reflexivity|]. cbn. repeat split.
  rewrite lookup_alter_eq, lookup_insert_eq. simpl. by rewrite insert_empty.
Qed.

(** Running the background tasks removes every directory that has a
    cleanup among them. *)
Lemma run_tasks_keeps_released ts w d :
  tmp w !! d = None → tmp (run_tasks ts w).2 !! d = None.
Proof.
  revert w. induction ts as [|[d'] ts IH]; intros w Hd; [done|].
  apply IH. cbn. destruct (decide (d' = d)) as [->|Hne].
  - apply lookup_delete_eq.
  - by rewrite lookup_delete_ne.
Qed.

Lemma run_tasks_releases ts w d :
  clean_temp_dir_task d ∈ ts → tmp (run_tasks ts w).2 !! d = None.
Proof.
  revert w. induction ts as [|[d'] ts IH]; intros w Hin.
  - by apply elem_of_nil in Hin.
  - apply elem_of_cons in Hin as [[= <-]|Hin].
    + change (tmp (run_tasks ts (set_tmp (delete d) w)).2 !! d = None).
      apply run_tasks_keeps_released. cbn. apply lookup_delete_eq.
    + change (tmp (run_tasks ts (set_tmp (delete d') w)).2 !! d = None).
      by apply IH.
Qed.



(** The lock-write failure, run: the download is answered 500 with no
    cleanup among the background tasks; the staging directory holds the
    blob at the exit and is gone once the directory object is
    collected. *)
Example lock_write_failure_leaves_staging_to_finalizer :
  let w := example_world "unlocked" "report.csv"
             [None; None; None; None; Some (ClientFault "ThrottlingException")] in
  let run := get_file example_cfg "alice" "hunter2" w in
  run.1 = Raise (HTTPException 500 "Error communicating with AWS SSM to set /save/lock")
  ∧ background_tasks run.2 = []
  ∧ tmp run.2 !! 0 = Some {[ "report.csv" := list_byte_of_string "a,b,c" ]}
  ∧ tmp (run_tasks (background_tasks run.2) run.2).2 !! 0
    = Some {[ "report.csv" := list_byte_of_string "a,b,c" ]}
  ∧ tmp (collect run.2) !! 0 = None.
Proof. cbv zeta. repeat split; vm_compute; reflexivity. Qed.



(** ** After a download *)

(** A download that returns has set the lock to the caller and left the
    rest of the two stores alone. *)
Lemma get_file_returned cfg w who_are_you password r w1 :
  get_file cfg who_are_you password w = (Return r, w1) →
  available cfg
  ∧ ssm w1 = <[SSM_PARAMETER_NAME cfg := who_are_you]> (ssm w)
  ∧ s3 w1 = s3 w.
Proof.
  unfold get_file.
  destruct (s3_client cfg) eqn:Hs3, (ssm_client cfg) eqn:Hssm; try done.
  cbn beta iota delta [negb orb].
  explore; try done.
  all: intros [= <- <-]; tidy; done.
Qed.

(** X10. After a download by [holder] has returned, the next authorized
    download, by anyone, is answered 409 naming [holder], unless
    [holder] called itself ["unlocked"]. *)
Lemma second_download_refused cfg w holder password r w1 who_next password_next :
  get_file cfg holder password w = (Return r, w1) →
  holder ≠ "unlocked" →
  ssm w1 !! SSM_PASSWORD_PARAMETER_NAME cfg = Some password_next →
  undisturbed 2 w1 →
  ∃ w2,
    get_file cfg who_next password_next w1
    = (Raise (HTTPException 409 ("Cannot download as save is locked by " +:+ holder)), w2)
    ∧ stores w2 = stores w1.
Proof.
  intros Hfirst Hholder Hpw Hq.
  apply get_file_returned in Hfirst as (Hav & Hssm & _).
  assert (ssm w1 !! SSM_PARAMETER_NAME cfg = Some holder) as Hlock.
  { rewrite Hssm. apply lookup_insert_eq. }
  eexists. rewrite get_file_conflict; [|done..|rewrite Hlock; congruence].
  by rewrite Hlock.
Qed.

(** ** The scenarios of the specification *)

Example scenario_download :
  let w := example_world "unlocked" "report.csv" [] in
  let run := get_file example_cfg "alice" "hunter2" w in
  run.1 = Return (FileResponse.mk (mkPath 0 "report.csv") "report.csv"
                                  "application/octet-stream")
  ∧ read_file (mkPath 0 "report.csv") run.2 = Some (list_byte_of_string "a,b,c")
  ∧ ssm run.2 !! "/save/lock" = Some "alice"
  ∧ tmp (run_tasks (background_tasks run.2) run.2).2 !! 0 = None.
Proof. cbv zeta. repeat split; vm_compute; reflexivity. Qed.

Example scenario_upload :
  let w := example_world "alice" "report.csv" [] in
  let file := UploadFile.mk "report.csv" (list_byte_of_string "x,y,z") in
  let run := upload_file example_cfg "bob" "hunter2" file w in
  run.1 = Return "File 'report.csv' uploaded successfully by 'bob'."
  ∧ ssm run.2 !! "/save/filename" = Some "report.csv"
  ∧ ssm run.2 !! "/save/lock" = Some "unlocked"
  ∧ s3 run.2 !! ("saves", "report.csv") = Some (list_byte_of_string "x,y,z").
Proof. cbv zeta. repeat split; vm_compute; reflexivity. Qed.

Example scenario_upload_while_unlocked :
  let w := example_world "unlocked" "report.csv" [] in
  let file := UploadFile.mk "report.csv" (list_byte_of_string "x,y,z") in
  let run := upload_file example_cfg "bob" "hunter2" file w in
  run.1 = Raise (HTTPException 409
                   "Cannot upload: API lock is 'unlocked', indicating a file may already be present and downloadable.")
  ∧ stores run.2 = stores w.
Proof. cbv zeta. repeat split; vm_compute; reflexivity. Qed.

(** * More of the gateway *)

(** ** Downloads, whatever the environment does *)

(** X7. Whenever a download returns, the supplied password was the stored
    one, the lock was ["unlocked"], and the response is the blob stored
    under the tracked name, with that name; the lock then names the
    caller, the bucket is untouched and the cleanup of the staging
    directory is scheduled. *)
Theorem download_sound cfg w who_are_you password r w1 :
  get_file cfg who_are_you password w = (Return r, w1) →
  available cfg
  ∧ ssm w !! SSM_PASSWORD_PARAMETER_NAME cfg = Some password
  ∧ ssm w !! SSM_PARAMETER_NAME cfg = Some "unlocked"
  ∧ ∃ name content,
      ssm w !! SSM_FILENAME_PARAMETER_NAME cfg = Some name
      ∧ name ≠ "" ∧ name ≠ "init"
      ∧ s3 w !! (S3_BUCKET_NAME cfg, name) = Some content
      ∧ r = FileResponse.mk (mkPath (tmp_next w) name) name "application/octet-stream"
      ∧ body r w1 = Some content
      ∧ ssm w1 = <[SSM_PARAMETER_NAME cfg := who_are_you]> (ssm w)
      ∧ s3 w1 = s3 w
      ∧ background_tasks w1 = background_tasks w ++ [clean_temp_dir_task (tmp_next w)].
Proof.
  unfold get_file.
  destruct (s3_client cfg) eqn:Hs3, (ssm_client cfg) eqn:Hssm; try done.
  cbn beta iota delta [negb orb].
  explore; try done.
  all: intros [= <- <-]; tidy.
  all: split; [done|]; split; [done|]; split; [done|].
  all: do 2 eexists; repeat split; try done.
  all: unfold body, read_file; cbn;
    match goal with Hplace : locate _ = _ |- _ => rewrite Hplace end.
  - apply staged_body.
  - cbn. apply lookup_insert_eq.
Qed.

Lemma download_sound_witness :
  let cfg := example_cfg in
  let w := example_world "unlocked" "report.csv" [] in
  let run := get_file cfg "alice" "hunter2" w in
  available cfg
  ∧ ssm w !! SSM_PASSWORD_PARAMETER_NAME cfg = Some "hunter2"
  ∧ ssm w !! SSM_PARAMETER_NAME cfg = Some "unlocked"
  ∧ ∃ name content,
      ssm w !! SSM_FILENAME_PARAMETER_NAME cfg = Some name
      ∧ name ≠ "" ∧ name ≠ "init"
      ∧ s3 w !! (S3_BUCKET_NAME cfg, name) = Some content
      ∧ FileResponse.mk (mkPath 0 "report.csv") "report.csv" "application/octet-stream"
        = FileResponse.mk (mkPath (tmp_next w) name) name "application/octet-stream"
      ∧ body (FileResponse.mk (mkPath 0 "report.csv") "report.csv" "application/octet-stream")
             run.2 = Some content
      ∧ ssm run.2 = <[SSM_PARAMETER_NAME cfg := "alice"]> (ssm w)
      ∧ s3 run.2 = s3 w
      ∧ background_tasks run.2 = background_tasks w ++ [clean_temp_dir_task (tmp_next w)].
Proof.
  apply (download_sound example_cfg (example_world "unlocked" "report.csv" [])
           "alice" "hunter2").
  vm_compute. reflexivity.
Defined.

(** X8. What a download raises is an [HTTPException] with one of the
    statuses 403, 404, 409, 500, 503, or an exception that is not a
    [ClientError] and that the route does not handle: one raised by one
    of its five calls to AWS, or by the file system that refuses the
    tracked name as the name of the staged file.  No [ClientError] gets
    out, and in each case the parameter store and the bucket are as they
    were. *)
Theorem download_failure_is_clean cfg w who_are_you password e w' :
  get_file cfg who_are_you password w = (Raise e, w') →
  stores w' = stores w
  ∧ match e with
    | HTTPException status detail => status ∈ get_file_statuses
    | ClientError Code => False
    | OtherException exception =>
        (∃ i, (i < 5)%nat ∧ fault_at i w = Some (OtherFault exception))
        ∨ (∃ name, ssm w !! SSM_FILENAME_PARAMETER_NAME cfg = Some name
                   ∧ locate name = Nowhere exception)
    end.
Proof.
  unfold get_file, get_file_statuses.
  destruct (s3_client cfg) eqn:Hs3, (ssm_client cfg) eqn:Hssm;
    cbn beta iota delta [negb orb];
    [explore|..]; try done.
  all: intros [= <- <-]; tidy; autorewrite with world in *.
  all: split; [done|].
  all: try set_solver.
  all: try (left; eexists; split; [|eassumption]; lia).
  all: right; eexists; split; [eassumption|done].
Qed.

Lemma download_failure_is_clean_witness :
  let w := example_world "unlocked" "report.csv" [None; None; None; Some (ClientFault "AccessDenied")] in
  let run := get_file example_cfg "alice" "hunter2" w in
  stores run.2 = stores w
  ∧ 500 ∈ get_file_statuses.
Proof.
  apply (download_failure_is_clean example_cfg
           (example_world "unlocked" "report.csv" [None; None; None; Some (ClientFault "AccessDenied")])
           "alice" "hunter2"
           (HTTPException 500 "Error downloading file from S3.")).
  vm_compute. reflexivity.
Defined.

(** A tracked name with a directory part: the download is not answered
    with an [HTTPException], the [FileNotFoundError] of the file system
    gets out of the route. *)
Example download_into_missing_directory :
  let w := example_world_tracking "sub/report.csv" [] in
  let run := get_file example_cfg "alice" "hunter2" w in
  run.1 = Raise (OtherException "FileNotFoundError")
  ∧ stores run.2 = stores w.
Proof. cbv zeta. split; vm_compute; reflexivity. Qed.

(** X9. The identity ["unlocked"] does not lock: a download that returns
    for a caller of that name leaves the parameter store and the bucket
    exactly as they were, so the gateway is still unlocked. *)
Theorem download_by_unlocked_does_not_lock cfg w password r w1 :
  get_file cfg "unlocked" password w = (Return r, w1) →
  stores w1 = stores w
  ∧ ssm w1 !! SSM_PARAMETER_NAME cfg = Some "unlocked".
Proof.
  unfold get_file.
  destruct (s3_client cfg) eqn:Hs3, (ssm_client cfg) eqn:Hssm; try done.
  cbn beta iota delta [negb orb].
  explore; try done.
  all: intros [= <- <-]; tidy; rewrite insert_id by done; done.
Qed.

Lemma download_by_unlocked_does_not_lock_witness :
  let w := example_world "unlocked" "report.csv" [] in
  let run := get_file example_cfg "unlocked" "hunter2" w in
  stores run.2 = stores w
  ∧ ssm run.2 !! SSM_PARAMETER_NAME example_cfg = Some "unlocked".
Proof.
  apply (download_by_unlocked_does_not_lock example_cfg
           (example_world "unlocked" "report.csv" []) "hunter2"
           (FileResponse.mk (mkPath 0 "report.csv") "report.csv" "application/octet-stream")).
  vm_compute. reflexivity.
Defined.

(** The background tasks only remove temporary directories. *)
Lemma run_tasks_stores ts w : stores (run_tasks ts w).2 = stores w.
Proof.
  revert w. induction ts as [|[d] ts IH]; intros w; [done|].
  change (stores (run_tasks ts (set_tmp (delete d) w)).2 = stores w).
  by rewrite IH.
Qed.

Lemma run_tasks_outside ts w : outside (run_tasks ts w).2 = outside w.
Proof.
  revert w. induction ts as [|[d] ts IH]; intros w; [done|].
  change (outside (run_tasks ts (set_tmp (delete d) w)).2 = outside w).
  by rewrite IH.
Qed.

(** Where a download that returns has staged the blob. *)
Lemma get_file_staged_copy cfg w who_are_you password r w1 :
  get_file cfg who_are_you password w = (Return r, w1) →
  ∃ name content,
    r = FileResponse.mk (mkPath (tmp_next w) name) name "application/octet-stream"
    ∧ clean_temp_dir_task (tmp_next w) ∈ background_tasks w1
    ∧ match locate name with
      | Inside file =>
          tmp w1 !! tmp_next w = Some {[file := content]} ∧ outside w1 = outside w
      | Outside => outside w1 !! os_path_join (mkPath (tmp_next w) name) = Some content
      | Nowhere _ => False
      end.
Proof.
  unfold get_file.
  destruct (s3_client cfg) eqn:Hs3, (ssm_client cfg) eqn:Hssm; try done.
  cbn beta iota delta [negb orb].
  explore; try done.
  all: intros [= <- <-]; tidy.
  all: do 2 eexists; split; [reflexivity|]; split; [set_solver|].
  all: match goal with Hplace : locate _ = _ |- _ => rewrite Hplace end.
  - split; [|done].
    rewrite lookup_alter_eq, lookup_insert_eq. simpl. by rewrite insert_empty.
  - apply lookup_insert_eq.
Qed.

(** X11. After a download has returned and its background tasks have run,
    the staging directory is gone and the two stores are as the download
    left them.  When the tracked name is the name of a file of the
    staging directory, the staged copy of the blob is gone with it and
    nothing was written elsewhere; when the name leads out of the
    directory (an absolute name, or one through [..]), the copy was
    written there and is still there. *)
Theorem served_download_is_released cfg w who_are_you password r w1 :
  get_file cfg who_are_you password w = (Return r, w1) →
  let w2 := (run_tasks (background_tasks w1) w1).2 in
  is_Some (body r w1)
  ∧ tmp w2 !! path_dir (FileResponse.path r) = None
  ∧ stores w2 = stores w1
  ∧ match locate (path_name (FileResponse.path r)) with
    | Inside _ => body r w2 = None ∧ outside w2 = outside w
    | Outside => body r w2 = body r w1
    | Nowhere _ => False
    end.
Proof.
  intros Hrun.
  destruct (get_file_staged_copy _ _ _ _ _ _ Hrun)
    as (name & content & -> & Hin & Hcopy).
  cbv zeta. cbn [FileResponse.path path_dir path_name].
  unfold body, read_file. cbn [FileResponse.path path_dir path_name].
  rewrite run_tasks_outside, (run_tasks_releases _ _ _ Hin).
  destruct (locate name) as [file| |exception]; [| |done].
  - destruct Hcopy as [-> ->]. cbn. rewrite lookup_singleton_eq.
    repeat split; [by eexists|exact (run_tasks_stores _ _)].
  - rewrite Hcopy. repeat split; [by eexists|exact (run_tasks_stores _ _)].
Qed.

Lemma served_download_is_released_witness :
  let w := example_world "unlocked" "report.csv" [] in
  let r := FileResponse.mk (mkPath 0 "report.csv") "report.csv" "application/octet-stream" in
  let w1 := (get_file example_cfg "alice" "hunter2" w).2 in
  let w2 := (run_tasks (background_tasks w1) w1).2 in
  is_Some (body r w1)
  ∧ tmp w2 !! path_dir (FileResponse.path r) = None
  ∧ stores w2 = stores w1
  ∧ body r w2 = None ∧ outside w2 = outside w.
Proof.
  apply (served_download_is_released example_cfg (example_world "unlocked" "report.csv" [])
           "alice" "hunter2"
           (FileResponse.mk (mkPath 0 "report.csv") "report.csv" "application/octet-stream")).
  vm_compute. reflexivity.
Defined.

(** A tracked name that leads out of the staging directory: the blob is
    staged next to the directory, and the copy is still there when the
    background tasks have run and the request is over. *)
Example download_escapes_staging :
  let w := example_world_tracking "../escape.csv" [] in
  let run := get_file example_cfg "alice" "hunter2" w in
  let w2 := end_of_request run.2 in
  run.1 = Return (FileResponse.mk (mkPath 0 "../escape.csv") "../escape.csv"
                    "application/octet-stream")
  ∧ tmp w2 !! 0 = None
  ∧ outside w2 !! "/tmp/tmp0/../escape.csv" = Some (list_byte_of_string "a,b,c").
Proof. cbv zeta. repeat split; vm_compute; reflexivity. Qed.

(** ** Uploads, whatever the environment does *)

(** X12. Whenever an upload returns, the supplied password was the stored
    one, the file has a name, all five calls were made in the order of
    the source, and the stores hold the blob, its name and an unlocked
    gateway. *)
Theorem upload_sound cfg w who_are_you password file msg w1 :
  upload_file cfg who_are_you password file w = (Return msg, w1) →
  available cfg
  ∧ ssm w !! SSM_PASSWORD_PARAMETER_NAME cfg = Some password
  ∧ UploadFile.filename file ≠ ""
  ∧ msg = uploaded file who_are_you
  ∧ s3 w1 = <[(S3_BUCKET_NAME cfg, UploadFile.filename file) := UploadFile.file file]> (s3 w)
  ∧ ssm w1 = <[SSM_PARAMETER_NAME cfg := "unlocked"]>
               (<[SSM_FILENAME_PARAMETER_NAME cfg := UploadFile.filename file]> (ssm w))
  ∧ tmp w1 = tmp w
  ∧ calls w1 = calls w ++ upload_file_calls cfg file.
Proof.
  unfold upload_file.
  destruct (s3_client cfg) eqn:Hs3, (ssm_client cfg) eqn:Hssm; try done.
  cbn beta iota delta [negb orb].
  explore; try done.
  intros [= <- <-]. tidy. unfold upload_file_calls. rewrite <- !app_assoc.
  repeat split; done.
Qed.

Lemma upload_sound_witness :
  let cfg := example_cfg in
  let w := example_world "alice" "report.csv" [] in
  let file := UploadFile.mk "report.csv" (list_byte_of_string "x,y,z") in
  let w1 := (upload_file cfg "bob" "hunter2" file w).2 in
  available cfg
  ∧ ssm w !! SSM_PASSWORD_PARAMETER_NAME cfg = Some "hunter2"
  ∧ UploadFile.filename file ≠ ""
  ∧ uploaded file "bob" = uploaded file "bob"
  ∧ s3 w1 = <[(S3_BUCKET_NAME cfg, UploadFile.filename file) := UploadFile.file file]> (s3 w)
  ∧ ssm w1 = <[SSM_PARAMETER_NAME cfg := "unlocked"]>
               (<[SSM_FILENAME_PARAMETER_NAME cfg := UploadFile.filename file]> (ssm w))
  ∧ tmp w1 = tmp w
  ∧ calls w1 = calls w ++ upload_file_calls cfg file.
Proof.
  apply (upload_sound example_cfg (example_world "alice" "report.csv" []) "bob" "hunter2"
           (UploadFile.mk "report.csv" (list_byte_of_string "x,y,z"))).
  vm_compute. reflexivity.
Defined.

(** X13. An upload that raises has not unlocked the gateway: the
    parameter store is as before, up to the tracked filename, and the
    bucket is as before, up to the uploaded blob, so that the lock reads
    as before whenever its parameter is not the one of the tracked
    filename.  What is raised is an [HTTPException] with one of the
    statuses 400, 403, 409, 500, 503, or an exception that is not a
    [ClientError], raised by one of the five calls to AWS and handled
    nowhere in the route; no [ClientError] gets out. *)
Theorem failed_upload_never_unlocks cfg w who_are_you password file e w' :
  upload_file cfg who_are_you password file w = (Raise e, w') →
  (ssm w' = ssm w
   ∨ ssm w' = <[SSM_FILENAME_PARAMETER_NAME cfg := UploadFile.filename file]> (ssm w))
  ∧ (s3 w' = s3 w
     ∨ s3 w' = <[(S3_BUCKET_NAME cfg, UploadFile.filename file) := UploadFile.file file]> (s3 w))
  ∧ (SSM_PARAMETER_NAME cfg ≠ SSM_FILENAME_PARAMETER_NAME cfg →
     ssm w' !! SSM_PARAMETER_NAME cfg = ssm w !! SSM_PARAMETER_NAME cfg)
  ∧ match e with
    | HTTPException status detail => status ∈ upload_file_statuses
    | ClientError Code => False
    | OtherException exception =>
        ∃ i, (i < 5)%nat ∧ fault_at i w = Some (OtherFault exception)
    end.
Proof.
  unfold upload_file, upload_file_statuses.
  destruct (s3_client cfg) eqn:Hs3, (ssm_client cfg) eqn:Hssm;
    cbn beta iota delta [negb orb];
    [explore|..]; try done.
  all: intros [= <- <-]; tidy; autorewrite with world in *.
  all: split; [by eauto|]; (split; [by eauto|]).
  all: split; [intros Hne; by rewrite ?lookup_insert_ne|].
  all: try set_solver.
  all: eexists; split; [|eassumption]; lia.
Qed.

Lemma failed_upload_never_unlocks_witness :
  let cfg := example_cfg in
  let w := example_world "alice" "report.csv" [None; None; None; None; Some (ClientFault "Throttled")] in
  let file := UploadFile.mk "new.csv" (list_byte_of_string "x,y,z") in
  let w' := (upload_file cfg "bob" "hunter2" file w).2 in
  (ssm w' = ssm w
   ∨ ssm w' = <[SSM_FILENAME_PARAMETER_NAME cfg := UploadFile.filename file]> (ssm w))
  ∧ (s3 w' = s3 w
     ∨ s3 w' = <[(S3_BUCKET_NAME cfg, UploadFile.filename file) := UploadFile.file file]> (s3 w))
  ∧ (SSM_PARAMETER_NAME cfg ≠ SSM_FILENAME_PARAMETER_NAME cfg →
     ssm w' !! SSM_PARAMETER_NAME cfg = ssm w !! SSM_PARAMETER_NAME cfg)
  ∧ 500 ∈ upload_file_statuses.
Proof.
  apply (failed_upload_never_unlocks example_cfg
           (example_world "alice" "report.csv" [None; None; None; None; Some (ClientFault "Throttled")])
           "bob" "hunter2" (UploadFile.mk "new.csv" (list_byte_of_string "x,y,z"))
           (HTTPException 500 "Error communicating with AWS SSM to set /save/lock")).
  vm_compute. reflexivity.
Defined.

(** An upload whose write of the blob meets an exception that is not a
    [ClientError]: the exception gets out of the route as it is. *)
Example upload_meets_connection_error :
  let w := example_world "alice" "report.csv" [None; None; Some (OtherFault "EndpointConnectionError")] in
  let file := UploadFile.mk "new.csv" (list_byte_of_string "x,y,z") in
  let run := upload_file example_cfg "bob" "hunter2" file w in
  run.1 = Raise (OtherException "EndpointConnectionError")
  ∧ stores run.2 = stores w.
Proof. cbv zeta. split; vm_compute; reflexivity. Qed.

Lemma undisturbed_le (n m : nat) w : (m ≤ n)%nat → undisturbed n w → undisturbed m w.
Proof.
  unfold undisturbed. generalize (faults w). clear w. intros fs. revert n m.
  induction fs as [|f fs IH]; intros n m Hle H.
  - by rewrite take_nil.
  - destruct m as [|m]; [done|]. destruct n as [|n]; [lia|].
    simpl in *. apply andb_prop in H as [-> H]. simpl. apply (IH n); [lia|done].
Qed.

(** An undisturbed upload into stores that a failed upload of the same
    file may have left. *)
Lemma upload_file_again cfg w w1 who_are_you password file :
  available cfg →
  SSM_PASSWORD_PARAMETER_NAME cfg ≠ SSM_FILENAME_PARAMETER_NAME cfg →
  SSM_PARAMETER_NAME cfg ≠ SSM_FILENAME_PARAMETER_NAME cfg →
  ssm w !! SSM_PASSWORD_PARAMETER_NAME cfg = Some password →
  ssm w !! SSM_PARAMETER_NAME cfg ≠ Some "unlocked" →
  UploadFile.filename file ≠ "" →
  ssm w1 = ssm w
  ∨ ssm w1 = <[SSM_FILENAME_PARAMETER_NAME cfg := UploadFile.filename file]> (ssm w) →
  s3 w1 = s3 w
  ∨ s3 w1 = <[(S3_BUCKET_NAME cfg, UploadFile.filename file) := UploadFile.file file]> (s3 w) →
  undisturbed 5 w1 →
  ∃ w2,
    upload_file cfg who_are_you password file w1 = (Return (uploaded file who_are_you), w2)
    ∧ ssm w2 = <[SSM_PARAMETER_NAME cfg := "unlocked"]>
                 (<[SSM_FILENAME_PARAMETER_NAME cfg := UploadFile.filename file]> (ssm w))
    ∧ s3 w2 = <[(S3_BUCKET_NAME cfg, UploadFile.filename file) := UploadFile.file file]> (s3 w).
Proof.
  intros Hav Hpf Hlf Hpw Hlock Hname Hssm1 Hs31 Hq.
  assert (fault_at 4 w1 = None) as Hf4 by fault_known.
  destruct (upload_file_tracked cfg w1 who_are_you password file)
    as (w2 & Hrun & Hssm2 & Hs32 & _).
  - done.
  - apply (undisturbed_le 5); [lia|done].
  - destruct Hssm1 as [-> | ->]; [done|]. by rewrite lookup_insert_ne.
  - done.
  - destruct Hssm1 as [-> | ->]; [done|]. by rewrite lookup_insert_ne.
  - rewrite Hf4 in Hrun, Hssm2. exists w2. split; [done|]. rewrite Hssm2, Hs32. split.
    + destruct Hssm1 as [-> | ->]; [done|]. by rewrite insert_insert_eq.
    + destruct Hs31 as [-> | ->]; [done|]. by rewrite insert_insert_eq.
Qed.

(** X14. A failed upload can be retried: when an upload to a locked gateway
    raises, at whatever call, the same upload made again and left
    undisturbed returns, and the stores end as if the first one had
    succeeded.  (The three parameter names have to differ as far as the
    tracked filename is concerned.) *)
Theorem failed_upload_can_be_retried cfg w who_are_you password file e w1 :
  SSM_PASSWORD_PARAMETER_NAME cfg ≠ SSM_FILENAME_PARAMETER_NAME cfg →
  SSM_PARAMETER_NAME cfg ≠ SSM_FILENAME_PARAMETER_NAME cfg →
  available cfg →
  ssm w !! SSM_PASSWORD_PARAMETER_NAME cfg = Some password →
  ssm w !! SSM_PARAMETER_NAME cfg ≠ Some "unlocked" →
  UploadFile.filename file ≠ "" →
  upload_file cfg who_are_you password file w = (Raise e, w1) →
  undisturbed 5 w1 →
  ∃ w2,
    upload_file cfg who_are_you password file w1 = (Return (uploaded file who_are_you), w2)
    ∧ ssm w2 = <[SSM_PARAMETER_NAME cfg := "unlocked"]>
                 (<[SSM_FILENAME_PARAMETER_NAME cfg := UploadFile.filename file]> (ssm w))
    ∧ s3 w2 = <[(S3_BUCKET_NAME cfg, UploadFile.filename file) := UploadFile.file file]> (s3 w).
Proof.
  intros Hpf Hlf Hav Hpw Hlock Hname Hfirst Hq.
  apply (upload_file_again cfg w w1); try done.
  - revert Hfirst. clear Hq. destruct Hav as [Hs3 Hssm]. unfold upload_file. rewrite Hs3, Hssm.
    cbn beta iota delta [negb orb]. explore; try done.
    all: intros [= <- <-]; tidy; by eauto.
  - revert Hfirst. clear Hq. destruct Hav as [Hs3 Hssm]. unfold upload_file. rewrite Hs3, Hssm.
    cbn beta iota delta [negb orb]. explore; try done.
    all: intros [= <- <-]; tidy; by eauto.
Qed.

Lemma failed_upload_can_be_retried_witness :
  let cfg := example_cfg in
  let w := example_world "alice" "report.csv" [None; None; None; Some (ClientFault "Throttled")] in
  let file := UploadFile.mk "new.csv" (list_byte_of_string "x,y,z") in
  let w1 := (upload_file cfg "bob" "hunter2" file w).2 in
  ∃ w2,
    upload_file cfg "bob" "hunter2" file w1 = (Return (uploaded file "bob"), w2)
    ∧ ssm w2 = <[SSM_PARAMETER_NAME cfg := "unlocked"]>
                 (<[SSM_FILENAME_PARAMETER_NAME cfg := UploadFile.filename file]> (ssm w))
    ∧ s3 w2 = <[(S3_BUCKET_NAME cfg, UploadFile.filename file) := UploadFile.file file]> (s3 w).
Proof.
  apply (failed_upload_can_be_retried example_cfg
           (example_world "alice" "report.csv" [None; None; None; Some (ClientFault "Throttled")])
           "bob" "hunter2" (UploadFile.mk "new.csv" (list_byte_of_string "x,y,z"))
           (HTTPException 500 "Error communicating with AWS SSM to set /save/filename")).
  - discriminate.
  - discriminate.
  - split; reflexivity.
  - vm_compute. reflexivity.
  - vm_compute. discriminate.
  - discriminate.
  - vm_compute. reflexivity.
  - reflexivity.
Defined.

(** ** Both routes, whatever the environment does *)

(** X15. Without the stored password nothing is served: whatever the
    environment does to the calls, a request whose password is not the
    stored one (or that comes while none is stored) makes both routes
    raise, having made at most the read of the password and with both
    stores as they were.  What they raise is an [HTTPException] 403, 500
    or 503, or the exception, not a [ClientError], that the read of the
    password has met. *)
Theorem unauthorized_never_served cfg w who_are_you password file :
  ssm w !! SSM_PASSWORD_PARAMETER_NAME cfg ≠ Some password →
  ∃ eg wg eu wu,
    get_file cfg who_are_you password w = (Raise eg, wg)
    ∧ upload_file cfg who_are_you password file w = (Raise eu, wu)
    ∧ match eg with
      | HTTPException status detail => status ∈ [403; 500; 503]
      | ClientError Code => False
      | OtherException exception => fault_at 0 w = Some (OtherFault exception)
      end
    ∧ match eu with
      | HTTPException status detail => status ∈ [403; 500; 503]
      | ClientError Code => False
      | OtherException exception => fault_at 0 w = Some (OtherFault exception)
      end
    ∧ stores wg = stores w ∧ stores wu = stores w
    ∧ (calls wg = calls w
       ∨ calls wg = calls w ++ [GetParameter (SSM_PASSWORD_PARAMETER_NAME cfg) true])
    ∧ calls wu = calls wg.
Proof.
  intros Hpw. unfold get_file, upload_file.
  destruct (s3_client cfg) eqn:Hs3, (ssm_client cfg) eqn:Hssm;
    cbn beta iota delta [negb orb].
  2-4: do 4 eexists; (split; [reflexivity|]); (split; [reflexivity|]);
       repeat split; first [done | by left | set_solver].
  rewrite !bind_unfold, !get_ssm_parameter_eq by done.
  destruct (reading (SSM_PASSWORD_PARAMETER_NAME cfg) w) as [v|e] eqn:Hread.
  - destruct (bool_decide_reflect (v ≠ Some password)) as [Hv|Hv].
    + do 4 eexists. split; [reflexivity|]. split; [reflexivity|].
      repeat split; first [done | by right | set_solver].
    + apply dec_stable in Hv. subst v. apply reading_Some in Hread. done.
  - apply reading_Raise in Hread as [->|(exception & Hfault & ->)].
    all: do 4 eexists; (split; [reflexivity|]); (split; [reflexivity|]).
    all: repeat split; first [done | by right | set_solver].
Qed.

Lemma unauthorized_never_served_witness :
  let cfg := example_cfg in
  let w := example_world "unlocked" "report.csv" [Some (ClientFault "ParameterNotFound")] in
  let file := UploadFile.mk "report.csv" (list_byte_of_string "x,y,z") in
  ∃ eg wg eu wu,
    get_file cfg "mallory" "letmein" w = (Raise eg, wg)
    ∧ upload_file cfg "mallory" "letmein" file w = (Raise eu, wu)
    ∧ match eg with
      | HTTPException status detail => status ∈ [403; 500; 503]
      | ClientError Code => False
      | OtherException exception => fault_at 0 w = Some (OtherFault exception)
      end
    ∧ match eu with
      | HTTPException status detail => status ∈ [403; 500; 503]
      | ClientError Code => False
      | OtherException exception => fault_at 0 w = Some (OtherFault exception)
      end
    ∧ stores wg = stores w ∧ stores wu = stores w
    ∧ (calls wg = calls w
       ∨ calls wg = calls w ++ [GetParameter (SSM_PASSWORD_PARAMETER_NAME cfg) true])
    ∧ calls wu = calls wg.
Proof.
  apply (unauthorized_never_served example_cfg
           (example_world "unlocked" "report.csv" [Some (ClientFault "ParameterNotFound")])
           "mallory" "letmein" (UploadFile.mk "report.csv" (list_byte_of_string "x,y,z"))).
  vm_compute. discriminate.
Defined.

(** X16. Two branches of the routes are never taken: since
    [set_ssm_parameter] raises where it could return [False], no download
    is answered "Failed to update API lock after download." and no upload
    "File uploaded but failed to update tracking parameter.". *)
Theorem guarded_branches_never_taken cfg w who_are_you password file :
  (get_file cfg who_are_you password w).1
  ≠ Raise (HTTPException 500 "Failed to update API lock after download.")
  ∧ (upload_file cfg who_are_you password file w).1
    ≠ Raise (HTTPException 500 "File uploaded but failed to update tracking parameter.").
Proof.
  unfold get_file, upload_file.
  destruct (s3_client cfg) eqn:Hs3, (ssm_client cfg) eqn:Hssm;
    cbn beta iota delta [negb orb]; [|by split..].
  split.
  - explore; tidy; cbn; done.
  - explore; tidy; cbn; done.
Qed.

(** What the environment did to the call of a read, by how the read
    ended. *)
Lemma reading_Return name w v :
  reading name w = Return v →
  fault_at 0 w = None ∧ v = ssm w !! name
  ∨ fault_at 0 w = Some (ClientFault "ParameterNotFound") ∧ v = None.
Proof.
  unfold reading. destruct (fault_at 0 w) as [[code|exception]|]; [|done|].
  - case_bool_decide; [|done]. intros [= <-]. subst code. by right.
  - intros [= <-]. by left.
Qed.

Lemma reading_Raise_fault name w e :
  reading name w = Raise e →
  ∃ f, fault_at 0 w = Some f ∧ f ≠ ClientFault "ParameterNotFound".
Proof.
  unfold reading. destruct (fault_at 0 w) as [[code|exception]|]; [| |done].
  - case_bool_decide; [done|]. intros _. eexists. split; [done|]. congruence.
  - intros _. by eexists.
Qed.

(** Turns the reads of an explored path into what the environment did to
    their calls. *)
Ltac answers :=
  repeat match goal with
  | H : reading _ _ = Return _ |- _ => apply reading_Return in H as [[? ?]|[? ?]]
  | H : reading _ _ = Raise _ |- _ => apply reading_Raise_fault in H as (? & ? & ?)
  | H : ¬ (_ ≠ _) |- _ => apply dec_stable in H
  end;
  autorewrite with world in *; subst.

(** Settles a goal [∃ n, calls .. = calls w ++ take n .. ∧ faults .. =
    drop n .. ∧ ..] by trying the possible numbers of calls; the last
    part says where a failed call leaves the route. *)
Ltac count_calls w :=
  let stops :=
    (let i := fresh "i" in let f := fresh "f" in
     let Hi := fresh "Hi" in let Hf := fresh "Hf" in
     intros i f Hi Hf;
     destruct i as [|[|[|[|[|i]]]]]; try (exfalso; cbn in Hi; lia);
     first [ reflexivity | by left | right; split; [done|congruence]
           | exfalso; congruence ]) in
  let settle :=
    (split;
     [ cbn; rewrite <- ?app_assoc, ?app_nil_r; reflexivity
     | split; [cbn; by destruct (faults w) as [|? [|? [|? [|? [|? ?]]]]] | stops] ]) in
  first [ exists 0; settle | exists 1; settle | exists 2; settle
        | exists 3; settle | exists 4; settle | exists 5; settle ].

(** X17. No retries, one order: whatever happens, the boto3 calls of an
    upload are the first [n] of the five calls of the source, for some
    [n], in their order (password, lock, blob, tracked filename, lock):
    none is made twice, none is skipped, none is made out of its turn,
    and the environment is asked once for each call made.  A call that
    the environment fails is the last one, with one exception: a read of
    the lock that finds it missing is followed by the rest, the missing
    lock being read as a held one. *)
Theorem upload_file_call_order cfg w who_are_you password file :
  let run := upload_file cfg who_are_you password file w in
  ∃ n, calls run.2 = calls w ++ take n (upload_file_calls cfg file)
       ∧ faults run.2 = drop n (faults w)
       ∧ ∀ i f, (i < n)%nat → fault_at i w = Some f →
           n = S i ∨ (i = 1 ∧ f = ClientFault "ParameterNotFound").
Proof.
  unfold upload_file, upload_file_calls.
  destruct (s3_client cfg) eqn:Hs3, (ssm_client cfg) eqn:Hssm;
    cbn beta iota zeta delta [negb orb]; [|unfold raise; cbn [fst snd]; count_calls w..].
  explore; cbn [fst snd]; answers; try done.
  all: count_calls w.
Qed.

(** The exception of X17, run: the lock is found missing and all five
    calls are made. *)
Example upload_after_missing_lock :
  let w := example_world "alice" "report.csv" [None; Some (ClientFault "ParameterNotFound")] in
  let file := UploadFile.mk "new.csv" (list_byte_of_string "x,y,z") in
  let run := upload_file example_cfg "bob" "hunter2" file w in
  run.1 = Return (uploaded file "bob")
  ∧ calls run.2 = upload_file_calls example_cfg file.
Proof. cbv zeta. split; vm_compute; reflexivity. Qed.

(** X18. The same for a download: its calls are the first [n], for some
    [n], of password, lock, tracked filename, blob fetch, lock write,
    where the fetch is that of the blob stored under the tracked name, at
    the path of that name in the fresh directory, and the lock is written
    with the caller's name.  A call that the environment fails is the
    last one. *)
Theorem get_file_call_order cfg w who_are_you password :
  let run := get_file cfg who_are_you password w in
  let name := default "" (ssm w !! SSM_FILENAME_PARAMETER_NAME cfg) in
  get_file_calls cfg who_are_you name (tmp_next w)
  = [GetParameter (SSM_PASSWORD_PARAMETER_NAME cfg) true;
     GetParameter (SSM_PARAMETER_NAME cfg) false;
     GetParameter (SSM_FILENAME_PARAMETER_NAME cfg) false;
     DownloadFile (S3_BUCKET_NAME cfg) name (mkPath (tmp_next w) name);
     PutParameter (SSM_PARAMETER_NAME cfg) who_are_you true]
  ∧ ∃ n,
      calls run.2 = calls w ++ take n (get_file_calls cfg who_are_you name (tmp_next w))
      ∧ faults run.2 = drop n (faults w)
      ∧ ∀ i f, (i < n)%nat → fault_at i w = Some f → n = S i.
Proof.
  cbv zeta. split; [reflexivity|].
  unfold get_file, get_file_calls.
  destruct (s3_client cfg) eqn:Hs3, (ssm_client cfg) eqn:Hssm;
    cbn beta iota zeta delta [negb orb];
    [|unfold raise; cbn [fst snd]; count_calls w..].
  explore; cbn [fst snd]; answers; try done.
  all: cbn [ssm log_call set_tmp set_tmp_next] in *.
  all: repeat match goal with
           | H : falsy _ || bool_decide (_ = Some "init") = false |- _ =>
               apply tracked_name_valid in H as (? & H & ? & ?)
           end.
  all: repeat match goal with
           | H : ssm _ !! _ = Some _ |- _ => rewrite H
           end;
    cbn [default]; count_calls w.
Qed.

(** X19. Requests touch only their own keys: whatever happens, a download
    leaves the bucket alone, an upload leaves every blob but the uploaded
    one alone, and neither changes a parameter other than the lock and
    the tracked filename (so never the password, when it is stored under
    a name of its own). *)
Theorem requests_touch_only_their_keys cfg w who_are_you password file k key :
  k ≠ SSM_PARAMETER_NAME cfg →
  k ≠ SSM_FILENAME_PARAMETER_NAME cfg →
  key ≠ (S3_BUCKET_NAME cfg, UploadFile.filename file) →
  let down := get_file cfg who_are_you password w in
  let up := upload_file cfg who_are_you password file w in
  ssm down.2 !! k = ssm w !! k
  ∧ s3 down.2 = s3 w
  ∧ ssm up.2 !! k = ssm w !! k
  ∧ s3 up.2 !! key = s3 w !! key.
Proof.
  intros Hlock Hname Hkey. cbv zeta. unfold get_file, upload_file.
  destruct (s3_client cfg) eqn:Hs3, (ssm_client cfg) eqn:Hssm;
    cbn beta iota delta [negb orb]; [|done..].
  split; [|split; [|split]].
  all: explore; tidy; cbn [fst snd ssm s3]; tidy; rewrite ?lookup_insert_ne by done; done.
Qed.

Lemma requests_touch_only_their_keys_witness :
  let cfg := example_cfg in
  let w := example_world "alice" "report.csv" [] in
  let file := UploadFile.mk "new.csv" (list_byte_of_string "x,y,z") in
  let down := get_file cfg "bob" "hunter2" w in
  let up := upload_file cfg "bob" "hunter2" file w in
  ssm down.2 !! "/save/password" = ssm w !! "/save/password"
  ∧ s3 down.2 = s3 w
  ∧ ssm up.2 !! "/save/password" = ssm w !! "/save/password"
  ∧ s3 up.2 !! ("saves", "report.csv") = s3 w !! ("saves", "report.csv").
Proof.
  apply (requests_touch_only_their_keys example_cfg (example_world "alice" "report.csv" [])
           "bob" "hunter2" (UploadFile.mk "new.csv" (list_byte_of_string "x,y,z"))
           "/save/password" ("saves", "report.csv")).
  - discriminate.
  - discriminate.
  - discriminate.
Defined.

(** ** Before the lock is looked at *)

(** X1. When a client is missing both routes answer 503 at once: no call is
    made, whatever the password, and the world is untouched. *)
Theorem unavailable_service_answers_503 cfg w who_are_you password file :
  s3_client cfg = false ∨ ssm_client cfg = false →
  get_file cfg who_are_you password w
  = (Raise (HTTPException 503 "AWS service client not available."), w)
  ∧ upload_file cfg who_are_you password file w
    = (Raise (HTTPException 503 "AWS service client not available."), w).
Proof.
  intros H. unfold get_file, upload_file.
  by destruct H as [-> | ->]; destruct (s3_client cfg), (ssm_client cfg).
Qed.

Lemma unavailable_service_answers_503_witness :
  let cfg := mkConfig "saves" "/save/lock" "/save/filename" "/save/password" false false in
  let w := example_world "unlocked" "report.csv" [] in
  let file := UploadFile.mk "report.csv" (list_byte_of_string "x,y,z") in
  get_file cfg "alice" "hunter2" w
  = (Raise (HTTPException 503 "AWS service client not available."), w)
  ∧ upload_file cfg "alice" "hunter2" file w
    = (Raise (HTTPException 503 "AWS service client not available."), w).
Proof.
  apply (unavailable_service_answers_503
           (mkConfig "saves" "/save/lock" "/save/filename" "/save/password" false false)).
  left. reflexivity.
Defined.

(** X2. An authorized upload of a file without a name is answered 400 before
    the lock is read, whatever the lock is; nothing is written. *)
Theorem nameless_upload_rejected cfg w who_are_you password file :
  available cfg →
  fault_at 0 w = None →
  ssm w !! SSM_PASSWORD_PARAMETER_NAME cfg = Some password →
  UploadFile.filename file = "" →
  ∃ w',
    upload_file cfg who_are_you password file w
    = (Raise (HTTPException 400 "Filename cannot be empty."), w')
    ∧ stores w' = stores w
    ∧ calls w' = calls w ++ [GetParameter (SSM_PASSWORD_PARAMETER_NAME cfg) true].
Proof.
  intros [Hs3 Hssm] Hf Hpw Hname. eexists.
  unfold upload_file. rewrite Hs3, Hssm. run_route.
  rewrite Hpw. rewrite bool_decide_eq_false_2 by (by intros []).
  rewrite bool_decide_eq_true_2 by done. done.
Qed.

Lemma nameless_upload_rejected_witness :
  let cfg := example_cfg in
  let w := example_world "alice" "report.csv" [] in
  let file := UploadFile.mk "" (list_byte_of_string "x,y,z") in
  ∃ w',
    upload_file cfg "bob" "hunter2" file w
    = (Raise (HTTPException 400 "Filename cannot be empty."), w')
    ∧ stores w' = stores w
    ∧ calls w' = calls w ++ [GetParameter (SSM_PASSWORD_PARAMETER_NAME cfg) true].
Proof.
  apply (nameless_upload_rejected example_cfg (example_world "alice" "report.csv" [])
           "bob" "hunter2" (UploadFile.mk "" (list_byte_of_string "x,y,z"))).
  - split; reflexivity.
  - reflexivity.
  - vm_compute. reflexivity.
  - reflexivity.
Defined.

(** ** The two helpers *)

(** X3. [get_ssm_parameter] only reads: it changes neither store; a
    value it returns for a read with decryption is the stored one (and so
    it is for a read without, of a parameter of type [String]); it turns
    every [ClientError] into the 500 of the source or, for
    [ParameterNotFound], into [None], so that no [ClientError] gets out;
    an exception of boto3 that is not a [ClientError] gets out as it is.
    This with or without a client. *)
Theorem get_ssm_parameter_contained cfg parameter_name with_decryption w :
  let run := get_ssm_parameter cfg parameter_name with_decryption w in
  stores run.2 = stores w
  ∧ tmp run.2 = tmp w
  ∧ match run.1 with
    | Return (Some value) =>
        with_decryption = true → ssm w !! parameter_name = Some value
    | Return None =>
        ssm_client cfg = false
        ∨ fault_at 0 w = Some (ClientFault "ParameterNotFound")
        ∨ fault_at 0 w = None ∧ ssm w !! parameter_name = None
    | Raise (HTTPException status_code detail) =>
        status_code = 500
        ∧ detail = "Error communicating with AWS SSM to get " +:+ parameter_name
        ∧ ∃ code, fault_at 0 w = Some (ClientFault code) ∧ code ≠ "ParameterNotFound"
    | Raise (ClientError Code) => False
    | Raise (OtherException exception) => fault_at 0 w = Some (OtherFault exception)
    end.
Proof.
  cbv zeta. destruct (ssm_client cfg) eqn:Hssm.
  - rewrite get_ssm_parameter_eq by done. cbn [fst snd].
    split; [done|]. split; [done|].
    unfold reading. destruct (fault_at 0 w) as [[code|exception]|].
    + case_bool_decide; [subst code; right; by left|]. by eauto.
    + done.
    + destruct (ssm w !! parameter_name); [done|]. right. by right.
  - unfold get_ssm_parameter. rewrite Hssm. cbn. split; [done|]. split; [done|]. by left.
Qed.

(** X4. [set_ssm_parameter] returns [False] exactly when there is no
    client, whatever [overwrite] is, and no [ClientError] gets out of
    it. *)
Theorem set_ssm_parameter_False_iff_no_client cfg parameter_name value overwrite w :
  let run := set_ssm_parameter cfg parameter_name value overwrite w in
  (run.1 = Return false ↔ ssm_client cfg = false)
  ∧ (∀ code, run.1 ≠ Raise (ClientError code)).
Proof.
  cbv zeta. unfold set_ssm_parameter.
  destruct (ssm_client cfg) eqn:Hssm; cbn beta iota delta [negb]; [|done].
  unfold try_except_ClientError, ssm_put_parameter, bind, aws. cbn beta iota.
  destruct (fault_at 0 w) as [[code|exception]|]; cbn beta iota delta [raise failed].
  - destruct (bool_decide (code = "ParameterAlreadyExists") && negb overwrite);
      cbn; (split; [split|]); done.
  - cbn; (split; [split|]); done.
  - cbn [ssm log_call].
    destruct (ssm w !! parameter_name), overwrite; cbn; (split; [split|]); done.
Qed.

(** X5. Without [overwrite], a write that the environment lets through
    creates the parameter when it is missing and keeps the stored value
    when it is there; in both cases it returns [True]. *)
Theorem set_ssm_parameter_without_overwrite cfg parameter_name value w :
  ssm_client cfg = true →
  fault_at 0 w = None →
  ∃ w',
    set_ssm_parameter cfg parameter_name value false w = (Return true, w')
    ∧ ssm w' !! parameter_name = Some (default value (ssm w !! parameter_name))
    ∧ (∀ other, other ≠ parameter_name → ssm w' !! other = ssm w !! other)
    ∧ s3 w' = s3 w.
Proof.
  intros Hssm Hf. unfold set_ssm_parameter, try_except_ClientError, ssm_put_parameter, bind, aws.
  rewrite Hssm. cbn beta iota delta [negb]. rewrite Hf. cbn [ssm log_call].
  destruct (ssm w !! parameter_name) as [old|] eqn:Hold; cbn.
  - eexists. split; [done|]. cbn. done.
  - eexists. split; [done|]. cbn. rewrite lookup_insert_eq.
    split; [done|]. split; [|done]. intros other Hne. by rewrite lookup_insert_ne.
Qed.

Lemma set_ssm_parameter_without_overwrite_witness :
  let cfg := example_cfg in
  let w := example_world "alice" "report.csv" [] in
  ∃ w',
    set_ssm_parameter cfg "/save/lock" "unlocked" false w = (Return true, w')
    ∧ ssm w' !! "/save/lock" = Some (default "unlocked" (ssm w !! "/save/lock"))
    ∧ (∀ other, other ≠ "/save/lock" → ssm w' !! other = ssm w !! other)
    ∧ s3 w' = s3 w.
Proof.
  apply (set_ssm_parameter_without_overwrite example_cfg "/save/lock" "unlocked"
           (example_world "alice" "report.csv" [])).
  - reflexivity.
  - reflexivity.
Defined.

(** X6. What is written is what is read: after an overwriting write that
    went through, an undisturbed read of the same name returns the value
    written, and a read of any other name what was stored before. *)
Theorem set_then_get cfg parameter_name value with_decryption w :
  ssm_client cfg = true →
  undisturbed 2 w →
  ∃ w1,
    set_ssm_parameter cfg parameter_name value true w = (Return true, w1)
    ∧ (get_ssm_parameter cfg parameter_name with_decryption w1).1 = Return (Some value)
    ∧ ∀ other, other ≠ parameter_name →
        (get_ssm_parameter cfg other with_decryption w1).1 = Return (ssm w !! other).
Proof.
  intros Hssm Hq. eexists. split.
  { apply set_ssm_parameter_written; [done|fault_known]. }
  split.
  - rewrite get_ssm_parameter_read by (done || fault_known).
    cbn. by rewrite lookup_insert_eq.
  - intros other Hne. rewrite get_ssm_parameter_read by (done || fault_known).
    cbn. by rewrite lookup_insert_ne.
Qed.

Lemma set_then_get_witness :
  let cfg := example_cfg in
  let w := example_world "alice" "report.csv" [] in
  ∃ w1,
    set_ssm_parameter cfg "/save/lock" "bob" true w = (Return true, w1)
    ∧ (get_ssm_parameter cfg "/save/lock" false w1).1 = Return (Some "bob")
    ∧ ∀ other, other ≠ "/save/lock" →
        (get_ssm_parameter cfg other false w1).1 = Return (ssm w !! other).
Proof.
  apply (set_then_get example_cfg "/save/lock" "bob" false
           (example_world "alice" "report.csv" [])).
  - reflexivity.
  - reflexivity.
Defined.

(** ** One download after another *)

Lemma second_download_refused_witness :
  let cfg := example_cfg in
  let w1 := (get_file cfg "alice" "hunter2" (example_world "unlocked" "report.csv" [])).2 in
  ∃ w2,
    get_file cfg "bob" "hunter2" w1
    = (Raise (HTTPException 409 ("Cannot download as save is locked by " +:+ "alice")), w2)
    ∧ stores w2 = stores w1.
Proof.
  apply (second_download_refused example_cfg (example_world "unlocked" "report.csv" [])
           "alice" "hunter2"
           (FileResponse.mk (mkPath 0 "report.csv") "report.csv" "application/octet-stream")
           _ "bob" "hunter2").
  - vm_compute. reflexivity.
  - discriminate.
  - vm_compute. reflexivity.
  - reflexivity.
Defined.

(** ** Start-up *)

(** Settles both equivalences of the start-up when the required [name]
    is unset or empty. *)
Ltac refused_for name :=
  split; split;
  [ intros (? & ? & ?); done
  | intros [H _]; destruct (H name) as (? & ? & ?); [set_solver|congruence]
  | intros _ H; destruct (H name) as (? & ? & ?); [set_solver|congruence]
  | intros _; by eexists ].

(** X20. The service starts exactly when the four required names are set
    in the environment, none of them is empty, and no creation of a
    client, in the region read from the environment, raises anything but
    [NoCredentialsError]; the module raises the [ValueError] of the
    source exactly when one of the four names is unset or empty, and
    before any client is created. *)
Theorem startup_succeeds_iff environ boto3 :
  let region := default "eu-west-3" (environ !! "AWS_REGION") in
  let named := ∀ name, name ∈ required_names → ∃ v, environ !! name = Some v ∧ v ≠ "" in
  ((∃ region' cfg, startup environ boto3 = inr (region', cfg))
   ↔ named
     ∧ (∀ exception, boto3 "s3" region ≠ CreationError exception)
     ∧ (boto3 "s3" region = Created →
        ∀ exception, boto3 "ssm" region ≠ CreationError exception))
  ∧ ((∃ message, startup environ boto3 = inl (ValueError message)) ↔ ¬ named).
Proof.
  cbv zeta. unfold startup, required_names, create_clients.
  destruct (environ !! "S3_BUCKET_NAME") as [b|] eqn:Hb;
    [|cbn; refused_for "S3_BUCKET_NAME"].
  destruct (environ !! "SSM_PARAMETER_NAME") as [l|] eqn:Hl;
    [|rewrite orb_true_r; cbn; refused_for "SSM_PARAMETER_NAME"].
  destruct (environ !! "SSM_FILENAME_PARAMETER_NAME") as [f|] eqn:Hf;
    [|rewrite !orb_true_r; cbn; refused_for "SSM_FILENAME_PARAMETER_NAME"].
  destruct (environ !! "SSM_PASSWORD_PARAMETER_NAME") as [p|] eqn:Hp;
    [|rewrite !orb_true_r; cbn; refused_for "SSM_PASSWORD_PARAMETER_NAME"].
  cbn [falsy].
  destruct (bool_decide_reflect (b = "")) as [Hbe|Hbe]; cbn [orb];
    [refused_for "S3_BUCKET_NAME"|].
  destruct (bool_decide_reflect (l = "")) as [Hle|Hle]; cbn [orb];
    [refused_for "SSM_PARAMETER_NAME"|].
  destruct (bool_decide_reflect (f = "")) as [Hfe|Hfe]; cbn [orb];
    [refused_for "SSM_FILENAME_PARAMETER_NAME"|].
  destruct (bool_decide_reflect (p = "")) as [Hpe|Hpe]; cbn [orb];
    [refused_for "SSM_PASSWORD_PARAMETER_NAME"|].
  assert (∀ name, name ∈ ["S3_BUCKET_NAME"; "SSM_PARAMETER_NAME";
                          "SSM_FILENAME_PARAMETER_NAME"; "SSM_PASSWORD_PARAMETER_NAME"] →
                  ∃ v, environ !! name = Some v ∧ v ≠ "") as Hnamed.
  { intros name Hin. set_unfold. destruct Hin as [-> | [-> | [-> | [-> | []]]]]; eauto. }
  split; split.
  - intros (region' & cfg & Hstart). split; [done|].
    destruct (boto3 "s3" _) eqn:Hs3; [|done|done].
    destruct (boto3 "ssm" _) eqn:Hssm; done.
  - intros (_ & Hs3 & Hssm).
    destruct (boto3 "s3" _) eqn:Es3; [|by eauto|by destruct (Hs3 exception)].
    destruct (boto3 "ssm" _) eqn:Essm; [by eauto|by eauto|].
    by destruct (Hssm eq_refl exception).
  - intros (message & Hstart) _.
    destruct (boto3 "s3" _); [|done|done]. by destruct (boto3 "ssm" _).
  - intros Hnot. by destruct Hnot.
Qed.

(** A region that boto3 does not take ends the start-up with the
    exception of the creation, which the [except NoCredentialsError]
    clause does not catch. *)
Example startup_with_empty_region :
  let environ : gmap string string :=
    <["AWS_REGION" := ""]>
      (<["S3_BUCKET_NAME" := "saves"]>
         (<["SSM_PARAMETER_NAME" := "/save/lock"]>
            (<["SSM_FILENAME_PARAMETER_NAME" := "/save/filename"]>
               (<["SSM_PASSWORD_PARAMETER_NAME" := "/save/password"]> ∅)))) in
  let boto3 := λ (service region : string),
    if bool_decide (region = "") then CreationError "InvalidRegionError" else Created in
  startup environ boto3 = inl (Uncaught "InvalidRegionError").
Proof. vm_compute. reflexivity. Qed.

(** X21. A started service reads its four names from the environment as they
    are, takes ["eu-west-3"] for a region that is not set, and has
    either both clients or none: it is available exactly when both
    clients could be created, and answers 503 to every request
    otherwise. *)
Theorem started_service cfg environ boto3 region who_are_you password file w :
  startup environ boto3 = inr (region, cfg) →
  environ !! "S3_BUCKET_NAME" = Some (S3_BUCKET_NAME cfg)
  ∧ environ !! "SSM_PARAMETER_NAME" = Some (SSM_PARAMETER_NAME cfg)
  ∧ environ !! "SSM_FILENAME_PARAMETER_NAME" = Some (SSM_FILENAME_PARAMETER_NAME cfg)
  ∧ environ !! "SSM_PASSWORD_PARAMETER_NAME" = Some (SSM_PASSWORD_PARAMETER_NAME cfg)
  ∧ region = default "eu-west-3" (environ !! "AWS_REGION")
  ∧ s3_client cfg = ssm_client cfg
  ∧ (available cfg ↔ boto3 "s3" region = Created ∧ boto3 "ssm" region = Created)
  ∧ (¬ available cfg →
     get_file cfg who_are_you password w
     = (Raise (HTTPException 503 "AWS service client not available."), w)
     ∧ upload_file cfg who_are_you password file w
       = (Raise (HTTPException 503 "AWS service client not available."), w)).
Proof.
  unfold startup. intros Hstart.
  destruct (environ !! "S3_BUCKET_NAME") as [b|] eqn:Hb; [|done].
  destruct (environ !! "SSM_PARAMETER_NAME") as [l|] eqn:Hl;
    [|by rewrite orb_true_r in Hstart].
  destruct (environ !! "SSM_FILENAME_PARAMETER_NAME") as [f|] eqn:Hf;
    [|by rewrite !orb_true_r in Hstart].
  destruct (environ !! "SSM_PASSWORD_PARAMETER_NAME") as [p|] eqn:Hp;
    [|by rewrite !orb_true_r in Hstart].
  destruct (falsy (Some b) || falsy (Some l) || falsy (Some f) || falsy (Some p)); [done|].
  unfold create_clients in Hstart.
  destruct (boto3 "s3" _) eqn:Es3; [destruct (boto3 "ssm" _) eqn:Essm| |]; try done.
  all: injection Hstart as <- <-.
  all: cbn [default S3_BUCKET_NAME SSM_PARAMETER_NAME SSM_FILENAME_PARAMETER_NAME
            SSM_PASSWORD_PARAMETER_NAME s3_client ssm_client fst snd].
  all: do 5 (split; [done|]).
  all: unfold available, get_file, upload_file; cbn [s3_client ssm_client fst snd].
  all: rewrite Es3, ?Essm; cbn; (split; [done|]);
    (split; [first [done | split; intros [? ?]; done]|]);
    first [done | intros Hna; by destruct Hna].
Qed.

Lemma started_service_witness :
  let environ : gmap string string :=
    <["S3_BUCKET_NAME" := "saves"]>
      (<["SSM_PARAMETER_NAME" := "/save/lock"]>
         (<["SSM_FILENAME_PARAMETER_NAME" := "/save/filename"]>
            (<["SSM_PASSWORD_PARAMETER_NAME" := "/save/password"]> ∅))) in
  let boto3 := λ service region : string,
    if bool_decide (service = "s3") then Created else NoCredentialsError in
  let region := "eu-west-3" in
  let cfg := mkConfig "saves" "/save/lock" "/save/filename" "/save/password" false false in
  let w := example_world "unlocked" "report.csv" [] in
  let file := UploadFile.mk "report.csv" (list_byte_of_string "x,y,z") in
  environ !! "S3_BUCKET_NAME" = Some (S3_BUCKET_NAME cfg)
  ∧ environ !! "SSM_PARAMETER_NAME" = Some (SSM_PARAMETER_NAME cfg)
  ∧ environ !! "SSM_FILENAME_PARAMETER_NAME" = Some (SSM_FILENAME_PARAMETER_NAME cfg)
  ∧ environ !! "SSM_PASSWORD_PARAMETER_NAME" = Some (SSM_PASSWORD_PARAMETER_NAME cfg)
  ∧ "eu-west-3" = default "eu-west-3" (environ !! "AWS_REGION")
  ∧ s3_client cfg = ssm_client cfg
  ∧ (available cfg ↔ boto3 "s3" region = Created ∧ boto3 "ssm" region = Created)
  ∧ (¬ available cfg →
     get_file cfg "alice" "hunter2" w
     = (Raise (HTTPException 503 "AWS service client not available."), w)
     ∧ upload_file cfg "alice" "hunter2" file w
       = (Raise (HTTPException 503 "AWS service client not available."), w)).
Proof.
  refine (started_service
           (mkConfig "saves" "/save/lock" "/save/filename" "/save/password" false false)
           (<["S3_BUCKET_NAME" := "saves"]>
              (<["SSM_PARAMETER_NAME" := "/save/lock"]>
                 (<["SSM_FILENAME_PARAMETER_NAME" := "/save/filename"]>
                    (<["SSM_PASSWORD_PARAMETER_NAME" := "/save/password"]> ∅))))
           (λ service region : string,
              if bool_decide (service = "s3") then Created else NoCredentialsError)
           "eu-west-3" "alice" "hunter2"
           (UploadFile.mk "report.csv" (list_byte_of_string "x,y,z"))
           (example_world "unlocked" "report.csv" []) _).
  vm_compute. reflexivity.
Defined.

(** ** What every sequence of requests keeps *)

(** One request keeps the tracked filename on a blob of the bucket. *)
Lemma serve_keeps_tracked_blob cfg q w :
  SSM_FILENAME_PARAMETER_NAME cfg ≠ SSM_PARAMETER_NAME cfg →
  tracked_blob_exists cfg w →
  tracked_blob_exists cfg (serve cfg q w).
Proof.
  intros Hne Hinv. unfold tracked_blob_exists in *. destruct q as [who pw|who pw file]; cbn [serve].
  - unfold get_file.
    destruct (s3_client cfg) eqn:Hs3, (ssm_client cfg) eqn:Hssm;
      cbn beta iota delta [negb orb]; [|done..].
    explore; tidy; cbn [fst snd ssm s3]; tidy; intros name0 Hn;
      rewrite ?lookup_insert_ne in Hn by done; by apply Hinv.
  - unfold upload_file.
    destruct (s3_client cfg) eqn:Hs3, (ssm_client cfg) eqn:Hssm;
      cbn beta iota delta [negb orb]; [|done..].
    explore; tidy; cbn [fst snd ssm s3]; tidy; intros name0 Hn;
      rewrite ?lookup_insert_ne in Hn by done.
    all: first
      [ by apply Hinv
      | rewrite lookup_insert_eq in Hn; injection Hn as <-; rewrite lookup_insert_eq; by eexists
      | apply lookup_insert_is_Some'; right; by apply Hinv ].
Qed.

(** X22. No sequence of requests creates drift: when the tracked filename
    and the lock are stored under different names and the tracked
    filename names a blob of the bucket, it still does after any requests,
    whatever the environment does to their calls and whether they return
    or raise. *)
Theorem requests_keep_tracked_blob cfg qs w :
  SSM_FILENAME_PARAMETER_NAME cfg ≠ SSM_PARAMETER_NAME cfg →
  tracked_blob_exists cfg w →
  tracked_blob_exists cfg (serve_all cfg qs w).
Proof.
  intros Hne. unfold serve_all. revert w.
  induction qs as [|q qs IH]; intros w Hinv; [done|].
  cbn [foldl]. apply IH. by apply serve_keeps_tracked_blob.
Qed.

Lemma requests_keep_tracked_blob_witness :
  let cfg := example_cfg in
  let w := example_world "unlocked" "report.csv"
             [None; None; None; None; None; None; None; None; None; Some (ClientFault "Throttled")] in
  let qs := [GET_get "alice" "hunter2";
             POST_post "alice" "hunter2" (UploadFile.mk "new.csv" (list_byte_of_string "x,y,z"));
             GET_get "bob" "hunter2"] in
  tracked_blob_exists cfg (serve_all cfg qs w).
Proof.
  apply (requests_keep_tracked_blob example_cfg
           [GET_get "alice" "hunter2";
            POST_post "alice" "hunter2" (UploadFile.mk "new.csv" (list_byte_of_string "x,y,z"));
            GET_get "bob" "hunter2"]
           (example_world "unlocked" "report.csv"
              [None; None; None; None; None; None; None; None; None; Some (ClientFault "Throttled")])).
  - discriminate.
  - intros name Hname. vm_compute in Hname. injection Hname as <-.
    vm_compute. by eexists.
Defined.

(** One request keeps the password and every blob. *)
Lemma serve_keeps_password_and_blobs cfg q w :
  SSM_PASSWORD_PARAMETER_NAME cfg ≠ SSM_PARAMETER_NAME cfg →
  SSM_PASSWORD_PARAMETER_NAME cfg ≠ SSM_FILENAME_PARAMETER_NAME cfg →
  ssm (serve cfg q w) !! SSM_PASSWORD_PARAMETER_NAME cfg
  = ssm w !! SSM_PASSWORD_PARAMETER_NAME cfg
  ∧ ∀ key, is_Some (s3 w !! key) → is_Some (s3 (serve cfg q w) !! key).
Proof.
  intros Hpl Hpf. destruct q as [who pw|who pw file]; cbn [serve].
  - unfold get_file.
    destruct (s3_client cfg) eqn:Hs3, (ssm_client cfg) eqn:Hssm;
      cbn beta iota delta [negb orb]; [|done..].
    explore; tidy; cbn [fst snd ssm s3]; tidy; rewrite ?lookup_insert_ne by done; done.
  - unfold upload_file.
    destruct (s3_client cfg) eqn:Hs3, (ssm_client cfg) eqn:Hssm;
      cbn beta iota delta [negb orb]; [|done..].
    explore; tidy; cbn [fst snd ssm s3]; tidy; rewrite ?lookup_insert_ne by done;
      (split; [done|]); intros key Hkey;
      first [done | apply lookup_insert_is_Some'; by right].
Qed.

(** X23. Along any sequence of requests the stored password stays what it
    is (when it has a parameter name of its own) and the bucket only
    grows: no request deletes a blob, so a key that holds a blob keeps
    holding one. *)
Theorem requests_keep_password_and_blobs cfg qs w :
  SSM_PASSWORD_PARAMETER_NAME cfg ≠ SSM_PARAMETER_NAME cfg →
  SSM_PASSWORD_PARAMETER_NAME cfg ≠ SSM_FILENAME_PARAMETER_NAME cfg →
  ssm (serve_all cfg qs w) !! SSM_PASSWORD_PARAMETER_NAME cfg
  = ssm w !! SSM_PASSWORD_PARAMETER_NAME cfg
  ∧ ∀ key, is_Some (s3 w !! key) → is_Some (s3 (serve_all cfg qs w) !! key).
Proof.
  intros Hpl Hpf. unfold serve_all. revert w.
  induction qs as [|q qs IH]; intros w; [done|].
  cbn [foldl].
  destruct (serve_keeps_password_and_blobs cfg q w Hpl Hpf) as [Hpw Hblobs].
  destruct (IH (serve cfg q w)) as [Hpw' Hblobs'].
  split; [congruence|]. intros key Hkey. by apply Hblobs', Hblobs.
Qed.

Lemma requests_keep_password_and_blobs_witness :
  let cfg := example_cfg in
  let w := example_world "alice" "report.csv" [] in
  let qs := [POST_post "alice" "hunter2" (UploadFile.mk "new.csv" (list_byte_of_string "x,y,z"));
             GET_get "bob" "hunter2";
             POST_post "bob" "wrong" (UploadFile.mk "report.csv" [])] in
  ssm (serve_all cfg qs w) !! SSM_PASSWORD_PARAMETER_NAME cfg
  = ssm w !! SSM_PASSWORD_PARAMETER_NAME cfg
  ∧ ∀ key, is_Some (s3 w !! key) → is_Some (s3 (serve_all cfg qs w) !! key).
Proof.
  apply (requests_keep_password_and_blobs example_cfg
           [POST_post "alice" "hunter2" (UploadFile.mk "new.csv" (list_byte_of_string "x,y,z"));
            GET_get "bob" "hunter2";
            POST_post "bob" "wrong" (UploadFile.mk "report.csv" [])]
           (example_world "alice" "report.csv" [])).
  - discriminate.
  - discriminate.
Defined.
